(** * Traffic-violation lookup: retry pipeline, result extractor and diff

    A shallow embedding of the lookup pipeline of the repository
    (violationService.ts, violationRepository.ts, httpClient.ts,
    captchaSolver.ts, htmlParser.ts, cronJobExecutionService.ts) and the
    properties of it that the specification states.

    JavaScript strings are sequences of UTF-16 code units; effects (network
    calls through the cookie-bearing client, OCR, the clock) are threaded
    through an explicit state; the site, the OCR engine and the HTML/JSON
    libraries are parameters of the development. *)

From Stdlib Require Import ZArith NArith List Bool Ascii String Lia.
From Stdlib Require Import Numbers.DecimalString Numbers.DecimalZ.
From stdpp Require Import base option list countable gmap.

Local Open Scope Z_scope.

(* ===================================================================== *)
(** ** JavaScript strings *)
(* ===================================================================== *)

Module JS.

(** A JavaScript string: its UTF-16 code units. *)
Abbreviation jsstring := (list N).

(** Emits the UTF-16 code units of one Unicode code point. *)
Definition code_units (cp : N) : jsstring :=
  if (cp <? 65536)%N then [cp]
  else [(55296 + (cp - 65536) / 1024)%N; (56320 + (cp - 65536) mod 1024)%N].

(** Decodes the UTF-8 bytes of a source literal. [need] is the number of
    continuation bytes still expected and [acc] the code point so far. *)
Fixpoint utf8_decode (bs : list N) (need : nat) (acc : N) : jsstring :=
  match bs with
  | [] => []
  | b :: bs' =>
      match need with
      | O =>
          if (b <? 128)%N then b :: utf8_decode bs' 0 0%N
          else if (b <? 224)%N then utf8_decode bs' 1 (b - 192)%N
          else if (b <? 240)%N then utf8_decode bs' 2 (b - 224)%N
          else utf8_decode bs' 3 (b - 240)%N
      | S n =>
          let acc' := (acc * 64 + (b - 128))%N in
          match n with
          | O => code_units acc' ++ utf8_decode bs' 0 0%N
          | S _ => utf8_decode bs' n acc'
          end
      end
  end.

(** A string literal of the source, as the JavaScript string it denotes. *)
Definition lit (s : string) : jsstring :=
  utf8_decode (map (fun a => N_of_ascii a) (list_ascii_of_string s)) 0 0%N.

(** [!s]: empty strings are falsy. *)
Definition is_empty (s : jsstring) : bool :=
  match s with [] => true | _ => false end.

(** [s || d] on strings. *)
Definition or_else (s d : jsstring) : jsstring :=
  if is_empty s then d else s.

Fixpoint startsWith (p s : jsstring) : bool :=
  match p, s with
  | [], _ => true
  | _ :: _, [] => false
  | x :: p', y :: s' => (x =? y)%N && startsWith p' s'
  end.

(** [s.includes(p)] *)
Fixpoint includes (s p : jsstring) : bool :=
  startsWith p s ||
  match s with
  | [] => false
  | _ :: s' => includes s' p
  end.

(** [s.indexOf(p)], counting from [i]. *)
Fixpoint indexOf_from (s p : jsstring) (i : Z) : Z :=
  if startsWith p s then i
  else match s with
       | [] => -1
       | _ :: s' => indexOf_from s' p (i + 1)
       end.

Definition indexOf (s p : jsstring) : Z := indexOf_from s p 0.

(** [s.substring(a, b)]: both indices are clamped to [0, length] and
    swapped when out of order. *)
Definition substring (s : jsstring) (a b : Z) : jsstring :=
  let len := Z.of_nat (length s) in
  let a' := Z.min (Z.max a 0) len in
  let b' := Z.min (Z.max b 0) len in
  let lo := Z.min a' b' in
  let hi := Z.max a' b' in
  take (Z.to_nat (hi - lo)) (drop (Z.to_nat lo) s).

(** White space and line terminators, as [trim] and the regular
    expression class [\s] see them. *)
Definition is_space (c : N) : bool :=
  ((9 <=? c) && (c <=? 13) || (c =? 32) || (c =? 160) || (c =? 5760)
   || (8192 <=? c) && (c <=? 8202) || (c =? 8232) || (c =? 8233)
   || (c =? 8239) || (c =? 8287) || (c =? 12288) || (c =? 65279))%N.

Fixpoint trimStart (s : jsstring) : jsstring :=
  match s with
  | [] => []
  | c :: s' => if is_space c then trimStart s' else s
  end.

Definition trimEnd (s : jsstring) : jsstring := rev (trimStart (rev s)).

(** [s.trim()] *)
Definition trim (s : jsstring) : jsstring := trimEnd (trimStart s).

(** [s.replace(/\s+/g, '')] *)
Definition remove_spaces (s : jsstring) : jsstring :=
  List.filter (fun c => negb (is_space c)) s.

(** [s.replace(/[\s-]/g, '')] *)
Definition remove_spaces_and_dashes (s : jsstring) : jsstring :=
  List.filter (fun c => negb (is_space c || (c =? 45)%N)) s.

(** [s.replace(p, r)] with a string pattern: the first occurrence only. *)
Fixpoint replace_first (s p r : jsstring) : jsstring :=
  if startsWith p s then r ++ drop (length p) s
  else match s with
       | [] => []
       | c :: s' => c :: replace_first s' p r
       end.

(** Lower-casing of one code unit.  The table follows Unicode on Basic
    Latin, Latin-1 Supplement, Latin Extended-A (U+0000 to U+017F), the
    horned letters U+01A0 and U+01AF, and Latin Extended Additional
    (U+1E00 to U+1EFF): the ranges the site's Vietnamese and English text
    lies in.  Code units outside these ranges are left as they are. *)
Definition lower_units (c : N) : jsstring :=
  (if (65 <=? c) && (c <=? 90) then [c + 32]
   else if (192 <=? c) && (c <=? 222) && negb (c =? 215) then [c + 32]
   else if c =? 304 then [105; 775]
   else if (256 <=? c) && (c <=? 303) || (306 <=? c) && (c <=? 311)
           || (330 <=? c) && (c <=? 375) then [if N.even c then c + 1 else c]
   else if (313 <=? c) && (c <=? 328) || (377 <=? c) && (c <=? 382)
        then [if N.odd c then c + 1 else c]
   else if c =? 376 then [255]
   else if (c =? 416) || (c =? 431) then [c + 1]
   else if c =? 7838 then [223]
   else if (7680 <=? c) && (c <=? 7829) || (7840 <=? c) && (c <=? 7935)
        then [if N.even c then c + 1 else c]
   else [c])%N.

(** Upper-casing of one code unit, over the same ranges. *)
Definition upper_units (c : N) : jsstring :=
  (if (97 <=? c) && (c <=? 122) then [c - 32]
   else if c =? 181 then [924]
   else if c =? 223 then [83; 83]
   else if (224 <=? c) && (c <=? 254) && negb (c =? 247) then [c - 32]
   else if c =? 305 then [73]
   else if c =? 329 then [700; 78]
   else if c =? 383 then [83]
   else if (256 <=? c) && (c <=? 303) || (306 <=? c) && (c <=? 311)
           || (330 <=? c) && (c <=? 375) then [if N.odd c then c - 1 else c]
   else if (313 <=? c) && (c <=? 328) || (377 <=? c) && (c <=? 382)
        then [if N.even c then c - 1 else c]
   else if c =? 255 then [376]
   else if (c =? 417) || (c =? 432) then [c - 1]
   else if c =? 7830 then [72; 817]
   else if c =? 7831 then [84; 776]
   else if c =? 7832 then [87; 778]
   else if c =? 7833 then [89; 778]
   else if c =? 7834 then [65; 702]
   else if c =? 7835 then [7776]
   else if (7680 <=? c) && (c <=? 7829) || (7840 <=? c) && (c <=? 7935)
        then [if N.odd c then c - 1 else c]
   else [c])%N.

(** [s.toLowerCase()] and [s.toUpperCase()] *)
Definition toLowerCase (s : jsstring) : jsstring := flat_map lower_units s.
Definition toUpperCase (s : jsstring) : jsstring := flat_map upper_units s.

(** [String(n)] for an integer [n]. *)
Definition Number_toString (n : Z) : jsstring :=
  lit (NilZero.string_of_int (Z.to_int n)).

End JS.
Import JS.

(* ===================================================================== *)
(** ** Data model (types/index.ts, types/database.ts) *)
(* ===================================================================== *)

(** Whether an optional property is present on an object. *)
Definition present {A : Type} (o : option A) : bool :=
  match o with Some _ => true | None => false end.

(** A thrown [Error]: its message and, for an error raised by axios, the
    status of the response it carries and its [code]. *)
Module JsError.
Record t := mk {
  message : jsstring;
  response_status : option Z;
  code : option jsstring }.
End JsError.

(** [new Error(msg)] *)
Definition Error (msg : jsstring) : JsError.t :=
  JsError.mk msg None None.

(** One violation, as the object is at run time: every property may be
    absent (the parser builds it from a [Partial<Violation>]). *)
Module Violation.
Record t := mk {
  plate : option jsstring;
  violationNumber : option Z;
  plateColor : option jsstring;
  vehicleType : option jsstring;
  violationTime : option jsstring;
  location : option jsstring;
  violation : option jsstring;
  status : option jsstring;
  resolutionPlace : option jsstring;
  resolutionDepartment : option jsstring;
  resolutionAddress : option jsstring;
  resolutionPhone : option jsstring;
  fine : option jsstring;
  message : option jsstring;
  rawPreview : option jsstring }.

(** The object literal [{}]. *)
Definition empty : t :=
  mk None None None None None None None None None None None None None None None.

(** [Object.keys(v).length > 0] *)
Definition has_keys (v : t) : bool :=
  present (plate v) || present (violationNumber v)
  || present (plateColor v) || present (vehicleType v)
  || present (violationTime v) || present (location v)
  || present (violation v) || present (status v)
  || present (resolutionPlace v) || present (resolutionDepartment v)
  || present (resolutionAddress v) || present (resolutionPhone v)
  || present (fine v) || present (message v) || present (rawPreview v).

(** Property assignments [v.field = x]. *)
Definition set_plateColor (x : jsstring) (v : t) : t :=
  mk (plate v) (violationNumber v) (Some x) (vehicleType v) (violationTime v)
     (location v) (violation v) (status v) (resolutionPlace v)
     (resolutionDepartment v) (resolutionAddress v) (resolutionPhone v)
     (fine v) (message v) (rawPreview v).
Definition set_vehicleType (x : jsstring) (v : t) : t :=
  mk (plate v) (violationNumber v) (plateColor v) (Some x) (violationTime v)
     (location v) (violation v) (status v) (resolutionPlace v)
     (resolutionDepartment v) (resolutionAddress v) (resolutionPhone v)
     (fine v) (message v) (rawPreview v).
Definition set_violationTime (x : jsstring) (v : t) : t :=
  mk (plate v) (violationNumber v) (plateColor v) (vehicleType v) (Some x)
     (location v) (violation v) (status v) (resolutionPlace v)
     (resolutionDepartment v) (resolutionAddress v) (resolutionPhone v)
     (fine v) (message v) (rawPreview v).
Definition set_location (x : jsstring) (v : t) : t :=
  mk (plate v) (violationNumber v) (plateColor v) (vehicleType v)
     (violationTime v) (Some x) (violation v) (status v) (resolutionPlace v)
     (resolutionDepartment v) (resolutionAddress v) (resolutionPhone v)
     (fine v) (message v) (rawPreview v).
Definition set_violation (x : jsstring) (v : t) : t :=
  mk (plate v) (violationNumber v) (plateColor v) (vehicleType v)
     (violationTime v) (location v) (Some x) (status v) (resolutionPlace v)
     (resolutionDepartment v) (resolutionAddress v) (resolutionPhone v)
     (fine v) (message v) (rawPreview v).
Definition set_status (x : jsstring) (v : t) : t :=
  mk (plate v) (violationNumber v) (plateColor v) (vehicleType v)
     (violationTime v) (location v) (violation v) (Some x) (resolutionPlace v)
     (resolutionDepartment v) (resolutionAddress v) (resolutionPhone v)
     (fine v) (message v) (rawPreview v).
Definition set_resolutionPlace (x : jsstring) (v : t) : t :=
  mk (plate v) (violationNumber v) (plateColor v) (vehicleType v)
     (violationTime v) (location v) (violation v) (status v) (Some x)
     (resolutionDepartment v) (resolutionAddress v) (resolutionPhone v)
     (fine v) (message v) (rawPreview v).
Definition set_resolutionDepartment (x : jsstring) (v : t) : t :=
  mk (plate v) (violationNumber v) (plateColor v) (vehicleType v)
     (violationTime v) (location v) (violation v) (status v)
     (resolutionPlace v) (Some x) (resolutionAddress v) (resolutionPhone v)
     (fine v) (message v) (rawPreview v).
Definition set_resolutionAddress (x : jsstring) (v : t) : t :=
  mk (plate v) (violationNumber v) (plateColor v) (vehicleType v)
     (violationTime v) (location v) (violation v) (status v)
     (resolutionPlace v) (resolutionDepartment v) (Some x) (resolutionPhone v)
     (fine v) (message v) (rawPreview v).
Definition set_resolutionPhone (x : jsstring) (v : t) : t :=
  mk (plate v) (violationNumber v) (plateColor v) (vehicleType v)
     (violationTime v) (location v) (violation v) (status v)
     (resolutionPlace v) (resolutionDepartment v) (resolutionAddress v)
     (Some x) (fine v) (message v) (rawPreview v).
End Violation.

Module ViolationCounts.
Record t := mk {
  totalPaidViolations : Z;
  totalUnpaidViolations : Z }.
End ViolationCounts.

Module LookupOptions.
Record t := mk {
  captchaText : option jsstring;
  saveCaptcha : option bool }.
End LookupOptions.

Module LookupData.
Record t := mk {
  plate : jsstring;
  vehicleType : jsstring;
  captcha : option jsstring;
  violations : option (list Violation.t);
  totalViolations : option Z;
  totalPaidViolations : option Z;
  totalUnpaidViolations : option Z;
  lookupTime : option jsstring;
  source : option jsstring;
  totalRetryCaptcha : option Z }.

Definition set_totalRetryCaptcha (n : Z) (d : t) : t :=
  mk (plate d) (vehicleType d) (captcha d) (violations d) (totalViolations d)
     (totalPaidViolations d) (totalUnpaidViolations d) (lookupTime d)
     (source d) (Some n).
Definition set_lookupTime_source (time src : jsstring) (d : t) : t :=
  mk (plate d) (vehicleType d) (captcha d) (violations d) (totalViolations d)
     (totalPaidViolations d) (totalUnpaidViolations d) (Some time)
     (Some src) (totalRetryCaptcha d).
End LookupData.

Inductive Status := ok | error.

Module LookupResult.
Record t := mk {
  status : Status;
  message : option jsstring;
  data : option LookupData.t }.
End LookupResult.

(** A string that may be [undefined]: truthy when present and non-empty. *)
Definition truthy (o : option jsstring) : bool :=
  match o with
  | Some s => negb (is_empty s)
  | None => false
  end.

(** [o || d] for an optional string. *)
Definition opt_or (o : option jsstring) (d : jsstring) : jsstring :=
  match o with
  | Some s => or_else s d
  | None => d
  end.

(* ===================================================================== *)
(** ** Captcha-solving adapter (utils/captchaSolver.ts) *)
(* ===================================================================== *)

Module CaptchaSolver.

Inductive CaptchaMethod := tesseract | autocaptcha.

(** What [worker.recognize] reports: the text read and the engine's mean
    confidence, an integral percentage (so [Math.round] leaves it as it
    is). *)
Record RecognizeData := {
  text : jsstring;
  confidence : Z }.

(** Lines written to the console. *)
Inductive Console :=
| console_warn (msg : jsstring)
| console_error (label : jsstring) (e : JsError.t).

(** The table [corrections] of common OCR mistakes. *)
Definition corrections : gmap jsstring jsstring :=
  list_to_map
    [ (lit "0", lit "O"); (lit "1", lit "l"); (lit "5", lit "S");
      (lit "6", lit "G"); (lit "8", lit "B"); (lit "l", lit "1");
      (lit "O", lit "0"); (lit "S", lit "5"); (lit "G", lit "6");
      (lit "B", lit "8") ].

(** [s.split('')]: the code units, each as a string. *)
Definition split_chars (s : jsstring) : list jsstring :=
  map (fun c => [c]) s.

(** [char => corrections[char] || char] *)
Definition correct_char (char : jsstring) : jsstring :=
  opt_or (corrections !! char) char.

(** The statements of [solveWithTesseract] after [worker.recognize]
    returned, up to the [return] or the first [throw]. *)
Definition after_recognize (d : RecognizeData)
  : list Console * (JsError.t + jsstring) :=
  let cleanedText := remove_spaces (trim (text d)) in
  if is_empty cleanedText then
    ([], inl (Error (lit "Tesseract OCR failed to extract text from captcha image")))
  else
    let low :=
      if confidence d <? 30 then
        [console_warn (lit "[WARN] Low confidence score: "
                       ++ Number_toString (confidence d)
                       ++ lit "% - result might be inaccurate")]
      else [] in
    let len := Z.of_nat (length cleanedText) in
    let unusual :=
      if (len <? 3) || (10 <? len) then
        [console_warn (lit "[WARN] Unusual captcha length: "
                       ++ Number_toString len ++ lit " characters")]
      else [] in
    let correctedText :=
      if confidence d <? 50
      then concat (map correct_char (split_chars cleanedText))
      else cleanedText in
    (low ++ unusual, inr correctedText).

(** [solveWithTesseract], given the outcome of [worker.recognize] (which
    may itself throw): whatever is thrown inside the [try] is logged and
    replaced by a new error. The first component is the console output,
    the second what the caller receives. *)
Definition solveWithTesseract (r : JsError.t + RecognizeData)
  : list Console * (JsError.t + jsstring) :=
  let '(logs, out) :=
    match r with
    | inl e => ([], inl e)
    | inr d => after_recognize d
    end in
  match out with
  | inr t => (logs, inr t)
  | inl e =>
      (logs ++ [console_error (lit "[ERROR] Tesseract OCR failed:") e],
       inl (Error (lit "Tesseract OCR failed: " ++ JsError.message e)))
  end.

(** The body of an Autocaptcha reply, through the properties that
    [solveWithAutocaptcha] reads. *)
Record AutocaptchaResponse := {
  success : option bool;
  captcha : option jsstring;
  result : option jsstring;
  data_text : option jsstring;
  plain_text : option jsstring;
  message : option jsstring;
  json : jsstring }.

(** [a || b] on optional strings, keeping the value of the last operand
    when none is truthy. *)
Definition first_truthy (a b : option jsstring) : option jsstring :=
  if truthy a then a else b.

(** The statements of [solveWithAutocaptcha] after [axios.post]
    returned. *)
Definition after_autocaptcha (r : AutocaptchaResponse) : JsError.t + jsstring :=
  let captchaText :=
    first_truthy (captcha r)
      (first_truthy (result r) (first_truthy (data_text r) (plain_text r))) in
  if negb (truthy captchaText) then
    inl (Error (lit "Failed to extract captcha text from response: " ++ json r))
  else
    match success r with
    | Some false =>
        inl (Error (lit "Autocaptcha error: "
                    ++ opt_or (message r) (lit "Unknown error")))
    | _ => inr (opt_or captchaText [])
    end.

End CaptchaSolver.

(* ===================================================================== *)
(** ** Result extractor (utils/htmlParser.ts) *)
(* ===================================================================== *)

Module HtmlParser.

(** One [.form-group] element of the violation container, through the
    three texts the parser reads from it: [$(el).text()],
    [$(el).find('label').text()] and [$(el).find('.col-md-9').text()]. *)
Record FormGroup := {
  el_text : jsstring;
  el_label : jsstring;
  el_value : jsstring }.

(** The loop state of [formGroups.each]. *)
Record ParseState := {
  violations : list Violation.t;
  currentViolation : Violation.t;
  violationCount : Z }.

(** The callback of [formGroups.each]. *)
Definition each_formGroup (st : ParseState) (el : FormGroup) : ParseState :=
  let text := trim (el_text el) in
  let label := trim (el_label el) in
  let value := trim (el_value el) in
  let cur := currentViolation st in
  let keep v := Build_ParseState (violations st) v (violationCount st) in
  if includes label (lit "Biển kiểm soát") then
    Build_ParseState
      (if Violation.has_keys cur then violations st ++ [cur]
       else violations st)
      (Violation.mk (Some value) (Some (violationCount st + 1))
         None None None None None None None None None None None None None)
      (violationCount st + 1)
  else if includes label (lit "Màu biển") then
    keep (Violation.set_plateColor value cur)
  else if includes label (lit "Loại phương tiện") then
    keep (Violation.set_vehicleType value cur)
  else if includes label (lit "Thời gian vi phạm") then
    keep (Violation.set_violationTime value cur)
  else if includes label (lit "Địa điểm vi phạm") then
    keep (Violation.set_location value cur)
  else if includes label (lit "Hành vi vi phạm") then
    keep (Violation.set_violation value cur)
  else if includes label (lit "Trạng thái") then
    keep (Violation.set_status value cur)
  else if includes label (lit "Nơi giải quyết") then
    keep (Violation.set_resolutionPlace value cur)
  else if negb (is_empty text) && is_empty label
          && includes text (lit "Đội CSGT") then
    keep (Violation.set_resolutionDepartment text cur)
  else if negb (is_empty text) && is_empty label
          && includes text (lit "Địa chỉ:") then
    keep (Violation.set_resolutionAddress
            (trim (replace_first text (lit "Địa chỉ:") [])) cur)
  else if negb (is_empty text) && is_empty label
          && includes text (lit "Số điện thoại") then
    keep (Violation.set_resolutionPhone
            (trim (replace_first text (lit "Số điện thoại liên hệ:") [])) cur)
  else st.

(** The records read from the violation container: the first block of
    [parseResultHtml]. [bodyPrint] is [None] when the selector
    [#bodyPrint123, #bodyPrint] matches nothing, and otherwise the
    [.form-group] elements under it, in document order. *)
Definition parse_container (bodyPrint : option (list FormGroup))
  : list Violation.t :=
  match bodyPrint with
  | None => []
  | Some formGroups =>
      let st := fold_left each_formGroup formGroups
                  (Build_ParseState [] Violation.empty 0) in
      if Violation.has_keys (currentViolation st)
      then violations st ++ [currentViolation st]
      else violations st
  end.

(** The record pushed by the fallback branch. *)
Definition fallback_record (html : jsstring) : Violation.t :=
  Violation.mk (Some []) (Some 0) None None None None None None None None
    None None None
    (Some (lit "Violation found - need to parse HTML structure in more detail"))
    (Some (substring html
             (indexOf html (lit "Biển kiểm soát"))
             (indexOf html (lit "Biển kiểm soát") + 500))).

Section Parse.
(** cheerio: [cheerio.load(html)], the selector for the container and
    [.find('.form-group')]. *)
Variable select_formGroups : jsstring -> option (list FormGroup).

(** [parseResultHtml]. The debugging copy of the page written to
    [result.html] does not bear on the value returned. *)
Definition parseResultHtml (html : jsstring) : list Violation.t :=
  let violations := parse_container (select_formGroups html) in
  if Nat.eqb (length violations) 0 then
    if includes html (lit "Đội CSGT") then violations ++ [fallback_record html]
    else violations
  else violations.
End Parse.

(** [isPaid] and [isUnpaid] of [calculateViolationCounts]. *)
Definition isPaid (status : option jsstring) : bool :=
  if negb (truthy status) then false
  else
    let s := toLowerCase (opt_or status []) in
    includes s (lit "đã xử phạt")
    || includes s (lit "đã nộp")
    || includes s (lit "paid")
    || includes s (lit "processed")
    || includes s (lit "resolved").

Definition isUnpaid (status : option jsstring) : bool :=
  if negb (truthy status) then false
  else
    let s := toLowerCase (opt_or status []) in
    includes s (lit "chưa xử phạt")
    || includes s (lit "chưa nộp")
    || includes s (lit "not")
    || includes s (lit "unpaid")
    || includes s (lit "not yet").

(** [calculateViolationCounts] *)
Definition calculateViolationCounts (violations : list Violation.t)
  : ViolationCounts.t :=
  let totalPaidViolations :=
    fold_left (fun acc v => acc + (if isPaid (Violation.status v) then 1 else 0))
      violations 0 in
  let totalUnpaidViolations :=
    fold_left (fun acc v => acc + (if isUnpaid (Violation.status v) then 1 else 0))
      violations 0 in
  ViolationCounts.mk totalPaidViolations totalUnpaidViolations.

End HtmlParser.

(* ===================================================================== *)
(** ** Effects: state, exceptions *)
(* ===================================================================== *)

(** An [async] function that may throw, over a state of type [S]. *)
Definition M (S A : Type) : Type := S -> (JsError.t + A) * S.

#[export] Instance M_ret {S} : MRet (M S) :=
  fun A (a : A) s => (inr a, s).

#[export] Instance M_bind {S} : MBind (M S) :=
  fun A B (k : A -> M S B) (m : M S A) s =>
    match m s with
    | (inr a, s') => k a s'
    | (inl e, s') => (inl e, s')
    end.

#[export] Instance M_throw {S} : MThrow JsError.t (M S) :=
  fun A (e : JsError.t) s => (inl e, s).

(** [try { m } catch (error) { handler(error) }] *)
Definition try_catch {S A} (m : M S A) (handler : JsError.t -> M S A) : M S A :=
  fun s =>
    match m s with
    | (inr a, s') => (inr a, s')
    | (inl e, s') => handler e s'
    end.

(* ===================================================================== *)
(** ** HTTP client with a cookie jar (utils/httpClient.ts) *)
(* ===================================================================== *)

Module Http.

Inductive Method := GET | POST.

(** A request as it leaves the client: the cookies are those the jar
    holds when it is sent; [form] holds the entries of the
    [URLSearchParams] body of a POST. The headers of [createHeaders] are
    the same on every call and are left out. *)
Record Request := {
  method : Method;
  url : jsstring;
  cookie : gmap jsstring jsstring;
  form : list (jsstring * jsstring) }.

(** A response, through what the repository reads from it: the status,
    the cookies it sets, [headers['content-type']], and [data] as the
    bytes of an image, as an HTML string, or as the validation object
    ([success] being ['true'] or [true], [href], and
    [JSON.stringify(data)]). *)
Record Response := {
  status : Z;
  set_cookie : list (jsstring * jsstring);
  content_type : option jsstring;
  data_bytes : list N;
  data_html : jsstring;
  data_success : bool;
  data_href : option jsstring;
  data_json : jsstring }.

(** What comes back: a response (after redirects), or no response at all
    (time-out, refused connection) with the [code] and message axios
    reports. *)
Inductive Reply :=
| Responded (r : Response)
| Failed (code : option jsstring) (message : jsstring).

(** The jar after the cookies of a response were stored: a cookie
    replaces the one of the same name. All requests of the repository go
    to one host, so domains, paths and expiry are not modelled. *)
Definition store (jar : gmap jsstring jsstring)
    (cs : list (jsstring * jsstring)) : gmap jsstring jsstring :=
  fold_left (fun j c => <[c.1 := c.2]> j) cs jar.

(** The [code] axios gives to an error for a response outside 2xx. *)
Definition status_error_code (status : Z) : option jsstring :=
  if status / 100 =? 4 then Some (lit "ERR_BAD_REQUEST")
  else if status / 100 =? 5 then Some (lit "ERR_BAD_RESPONSE")
  else None.

End Http.

(** Everything outside the program: the site behind the HTTP client, the
    OCR engine, the Autocaptcha service, the clock, the HTML selector
    library, and the two settings read from the process environment. *)
Record Env := {
  World : Type;
  http : Http.Request -> World -> Http.Reply * World;
  recognize : list N -> World ->
              (JsError.t + CaptchaSolver.RecognizeData) * World;
  autocaptcha_post : list N -> jsstring -> World ->
              (JsError.t + CaptchaSolver.AutocaptchaResponse) * World;
  clock : World -> jsstring;
  select_formGroups : jsstring -> option (list HtmlParser.FormGroup);
  defaultMethod : CaptchaSolver.CaptchaMethod;
  autocaptcha_key : jsstring }.

(** What the program did to the outside, in order. *)
Inductive Event :=
| ev_request (r : Http.Request)
| ev_recognize (image : list N)
| ev_autocaptcha (image : list N) (contentType : jsstring).

(** The state of a [ViolationRepository]: the cookie jar of the client
    made by its constructor, next to the world it talks to and the
    record of what it did. *)
Record Repo (E : Env) := {
  world : World E;
  jar : gmap jsstring jsstring;
  trace : list Event }.
Arguments world {E} _.
Arguments jar {E} _.
Arguments trace {E} _.
Arguments Build_Repo {E} _ _ _.

(** [config.csgt] *)
Module Config.
Definition baseUrl := lit "https://www.csgt.vn".
Definition lookupUrl := lit "https://www.csgt.vn/tra-cuu-phuong-tien-vi-pham.html".
Definition captchaEndpoint := lit "https://www.csgt.vn/lib/captcha/captcha.class.php".
Definition ajaxValidateUrl := lit "https://www.csgt.vn/?mod=contact&task=tracuu_post&ajax".
End Config.

Section Client.
Variable E : Env.

(** [createHttpClient]: a client over a new, empty jar. *)
Definition createHttpClient (w : World E) : Repo E :=
  Build_Repo w ∅ [].

(** One request through the client: the jar's cookies go out with it,
    the cookies of the response are stored, and a status outside 2xx
    is thrown as an error. *)
Definition request (m : Http.Method) (u : jsstring)
    (f : list (jsstring * jsstring)) : M (Repo E) Http.Response :=
  fun st =>
    let req := Http.Build_Request m u (jar st) f in
    let '(reply, w) := http E req (world st) in
    let tr := trace st ++ [ev_request req] in
    match reply with
    | Http.Failed c msg =>
        (inl (JsError.mk msg None c), Build_Repo w (jar st) tr)
    | Http.Responded r =>
        let st' := Build_Repo w (Http.store (jar st) (Http.set_cookie r)) tr in
        if (200 <=? Http.status r) && (Http.status r <? 300) then (inr r, st')
        else
          (inl (JsError.mk
                  (lit "Request failed with status code "
                   ++ Number_toString (Http.status r))
                  (Some (Http.status r))
                  (Http.status_error_code (Http.status r))),
           st')
    end.

(** [createFormData]: the entries appended to the [URLSearchParams]. *)
Definition createFormData (plate vehicleType captchaText : jsstring)
  : list (jsstring * jsstring) :=
  [ (lit "BienKS", plate ++ lit " ");
    (lit "Xe", vehicleType);
    (lit "captcha", captchaText);
    (lit "ipClient", lit "9.9.9.91");
    (lit "cUrl", lit "1") ].
End Client.

(* ===================================================================== *)
(** ** Captcha solving against the outside (utils/captchaSolver.ts) *)
(* ===================================================================== *)

Section Solve.
Variable E : Env.

(** [solveWithTesseract]; its console output is not kept. *)
Definition solveWithTesseract (imageBuffer : list N) : M (Repo E) jsstring :=
  fun st =>
    let '(r, w) := recognize E imageBuffer (world st) in
    ((CaptchaSolver.solveWithTesseract r).2,
     Build_Repo w (jar st) (trace st ++ [ev_recognize imageBuffer])).

(** [solveWithAutocaptcha]: its own axios call, outside the jar. *)
Definition solveWithAutocaptcha (imageBuffer : list N) (contentType : jsstring)
  : M (Repo E) jsstring :=
  if is_empty (autocaptcha_key E) then
    mthrow (Error (lit "AUTOCAPTCHA_KEY not set in environment variables"))
  else
    fun st =>
      let '(r, w) := autocaptcha_post E imageBuffer contentType (world st) in
      (match r with
       | inl e => inl e
       | inr resp => CaptchaSolver.after_autocaptcha resp
       end,
       Build_Repo w (jar st)
         (trace st ++ [ev_autocaptcha imageBuffer contentType])).

(** The exported [solveCaptcha]: one method per call, no fall-back;
    the [catch] logs and throws the same error again. *)
Definition solveCaptcha_util (imageBuffer : list N) (contentType : jsstring)
    (method : option CaptchaSolver.CaptchaMethod) : M (Repo E) jsstring :=
  match default (defaultMethod E) method with
  | CaptchaSolver.tesseract => solveWithTesseract imageBuffer
  | CaptchaSolver.autocaptcha => solveWithAutocaptcha imageBuffer contentType
  end.
End Solve.

(* ===================================================================== *)
(** ** Site session client and pipeline (repositories/violationRepository.ts) *)
(* ===================================================================== *)

Module CaptchaResponse.
Record t := mk {
  buffer : list N;
  contentType : jsstring }.
End CaptchaResponse.

(** [CSGTAjaxResponse], through [href]. *)
Module CSGTAjaxResponse.
Record t := mk { href : option jsstring }.
End CSGTAjaxResponse.

Module ViolationRepository.
Section Repository.
Variable E : Env.

(** The constructor: [this.client = createHttpClient()]. *)
Definition new (w : World E) : Repo E := createHttpClient E w.

(** [initSession] *)
Definition initSession : M (Repo E) unit :=
  _ ← request E Http.GET Config.baseUrl []; mret tt.

(** [fetchCaptchaImage]. The copy of the image saved for debugging does
    not bear on the value returned. *)
Definition fetchCaptchaImage : M (Repo E) CaptchaResponse.t :=
  resp ← request E Http.GET Config.captchaEndpoint [];
  mret (CaptchaResponse.mk (Http.data_bytes resp)
          (opt_or (Http.content_type resp) (lit "image/png"))).

(** [solveCaptcha] of the repository. *)
Definition solveCaptcha (imageBuffer : list N) (contentType : jsstring)
    (manualCaptcha : option jsstring)
    (method : option CaptchaSolver.CaptchaMethod) : M (Repo E) jsstring :=
  if truthy manualCaptcha then mret (opt_or manualCaptcha [])
  else
    let captchaMethod := default (defaultMethod E) method in
    solveCaptcha_util E imageBuffer contentType (Some captchaMethod).

(** The error thrown for a response with status 500 or above. *)
Definition ServerError (status : Z) : JsError.t :=
  Error (Number_toString status
         ++ lit " - Server error. Please try again later.").

(** The [catch] shared by [validateCaptchaAjax] and
    [fetchLookupResult]: classifies the error by the status of its
    response or by its code, and throws anything else again as it
    is. *)
Definition classify {A} (e : JsError.t) : M (Repo E) A :=
  match JsError.response_status e with
  | Some 404 =>
      mthrow (Error (lit "Website endpoint may have changed or session expired. Please try again."))
  | Some 403 =>
      mthrow (Error (lit "Access forbidden. Possible rate limiting."))
  | Some st =>
      if 500 <=? st then mthrow (ServerError st)
      else if bool_decide (JsError.code e = Some (lit "ECONNABORTED"))
              || bool_decide (JsError.code e = Some (lit "ETIMEDOUT")) then
        mthrow (Error (lit "Timeout - Server is slow to respond. Please try again."))
      else mthrow e
  | None =>
      if bool_decide (JsError.code e = Some (lit "ECONNABORTED"))
         || bool_decide (JsError.code e = Some (lit "ETIMEDOUT")) then
        mthrow (Error (lit "Timeout - Server is slow to respond. Please try again."))
      else mthrow e
  end.

(** [validateCaptchaAjax] *)
Definition validateCaptchaAjax (plate vehicleType captchaText : jsstring)
  : M (Repo E) CSGTAjaxResponse.t :=
  let formData := createFormData plate vehicleType captchaText in
  try_catch
    (resp ← request E Http.POST Config.ajaxValidateUrl formData;
     if negb (Http.data_success resp) then
       let responseData := Http.data_json resp in
       if includes responseData (lit "404") then
         mthrow (Error (lit "Website endpoint may have changed or session expired. Please try again."))
       else if includes responseData (lit "403") then
         mthrow (Error (lit "Access forbidden. Possible rate limiting."))
       else
         mthrow (Error (lit "Captcha validation failed: " ++ responseData))
     else mret (CSGTAjaxResponse.mk (Http.data_href resp)))
    classify.

(** [fetchLookupResult] *)
Definition fetchLookupResult (redirectUrl : option jsstring)
  : M (Repo E) jsstring :=
  let url := opt_or redirectUrl Config.lookupUrl in
  try_catch
    (resp ← request E Http.GET url []; mret (Http.data_html resp))
    classify.

(** [lookupViolations]: one attempt of the pipeline. Its [catch] logs
    the error and throws it again. *)
Definition lookupViolations (plate vehicleType : jsstring)
    (options : LookupOptions.t) (forceRefreshCaptcha : bool)
  : M (Repo E) LookupResult.t :=
  try_catch
    (_ ← initSession;
     captchaText ←
       (if forceRefreshCaptcha || negb (truthy (LookupOptions.captchaText options))
        then
          img ← fetchCaptchaImage;
          solveCaptcha (CaptchaResponse.buffer img)
            (CaptchaResponse.contentType img)
            (LookupOptions.captchaText options) None
        else mret (opt_or (LookupOptions.captchaText options) []));
     ajaxResp ← validateCaptchaAjax plate vehicleType captchaText;
     let redirectUrl := CSGTAjaxResponse.href ajaxResp in
     htmlResponse ← fetchLookupResult redirectUrl;
     let violations :=
       HtmlParser.parseResultHtml (select_formGroups E) htmlResponse in
     let counts := HtmlParser.calculateViolationCounts violations in
     mret (LookupResult.mk ok None
             (Some (LookupData.mk plate vehicleType (Some captchaText)
                      (Some violations)
                      (Some (Z.of_nat (length violations)))
                      (Some (ViolationCounts.totalPaidViolations counts))
                      (Some (ViolationCounts.totalUnpaidViolations counts))
                      None None None))))
    (fun err => mthrow err).
End Repository.
End ViolationRepository.

(* ===================================================================== *)
(** ** Lookup pipeline and retry orchestrator (services/violationService.ts) *)
(* ===================================================================== *)

(** The repository as the service sees it: one method, over the
    repository's own state. *)
Class Repository (S : Type) := {
  lookupViolations :
    jsstring -> jsstring -> LookupOptions.t -> bool -> M S LookupResult.t }.

#[export] Instance ViolationRepository_Repository (E : Env)
  : Repository (Repo E) :=
  {| lookupViolations := ViolationRepository.lookupViolations E |}.

(** What a retry loop did, step by step: each call of the repository
    with the attempt number, the refresh flag and captcha text it was
    given and how it ended, and each wait before a retry. *)
Inductive Step :=
| attempted (attempt : Z) (forceRefreshCaptcha : bool)
    (captchaText : option jsstring) (outcome : JsError.t + LookupResult.t)
| slept (ms : Z).

(** The state of a [ViolationService]: the repository made by its
    constructor, and the journal of its retry loops. *)
Record Service (S : Type) := {
  violationRepository : S;
  journal : list Step }.
Arguments violationRepository {S} _.
Arguments journal {S} _.
Arguments Build_Service {S} _ _.

Module ViolationService.
Section Service.
Context {S : Type} `{Repository S}.

(** [new Date().toISOString()] *)
Variable toISOString_now : S -> jsstring.

(** The constructor: [this.violationRepository = new ViolationRepository()]. *)
Definition new (repository : S) : Service S := Build_Service repository [].

(** [isRetryableError] *)
Definition isRetryableError (error : JsError.t) : bool :=
  let message := JsError.message error in
  includes message (lit "Captcha validation failed")
  || includes message (lit "404")
  || includes message (lit "403")
  || includes message (lit "500")
  || includes message (lit "502")
  || includes message (lit "503")
  || includes message (lit "504")
  || includes message (lit "Timeout")
  || includes message (lit "Server error")
  || includes message (lit "ECONNABORTED")
  || includes message (lit "ETIMEDOUT").

(** The test that guards [options.captchaText = undefined] and
    [totalRetryCaptcha++] after the wait. *)
Definition clears_captcha (errorMsg : jsstring) : bool :=
  includes errorMsg (lit "Captcha validation failed")
  || includes errorMsg (lit "404")
  || includes errorMsg (lit "403")
  || includes errorMsg (lit "Timeout")
  || includes errorMsg (lit "Server error").

(** The statement after the loop of [lookupWithRetry]. *)
Definition error_result (plate vehicleType : jsstring)
    (lastError : option JsError.t) (totalRetryCaptcha : Z) : LookupResult.t :=
  LookupResult.mk error
    (Some (opt_or (JsError.message <$> lastError)
             (lit "Unknown error occurred")))
    (Some (LookupData.mk plate vehicleType None None None None None None None
             (Some totalRetryCaptcha))).

(** [result.data.totalRetryCaptcha = totalRetryCaptcha] for a result
    with status ['ok'] and [data]. *)
Definition with_retry_count (totalRetryCaptcha : Z) (result : LookupResult.t)
  : LookupResult.t :=
  match LookupResult.status result, LookupResult.data result with
  | ok, Some d =>
      LookupResult.mk ok (LookupResult.message result)
        (Some (LookupData.set_totalRetryCaptcha totalRetryCaptcha d))
  | _, _ => result
  end.

(** One call of the repository from the loop, written to the journal. *)
Definition call_repository (plate vehicleType : jsstring)
    (options : LookupOptions.t) (attempt : Z) (forceRefreshCaptcha : bool)
    (sv : Service S) : (JsError.t + LookupResult.t) * Service S :=
  let '(r, repo) :=
    lookupViolations plate vehicleType options forceRefreshCaptcha
      (violationRepository sv) in
  (r, Build_Service repo
        (journal sv ++ [attempted attempt forceRefreshCaptcha
                          (LookupOptions.captchaText options) r])).

(** [setTimeout(resolve, ms)], awaited. *)
Definition sleep (ms : Z) (sv : Service S) : Service S :=
  Build_Service (violationRepository sv) (journal sv ++ [slept ms]).

(** The [for] loop of [lookupWithRetry], with [remaining] iterations
    left before [attempt <= maxRetries + 1] fails, and the [return]
    after it. [options] is the caller's object, which the loop
    changes in place. *)
Fixpoint retry_loop (remaining : nat) (plate vehicleType : jsstring)
    (maxRetries attempt : Z) (options : LookupOptions.t)
    (lastError : option JsError.t) (totalRetryCaptcha : Z)
    (sv : Service S) : LookupResult.t * Service S :=
  match remaining with
  | O => (error_result plate vehicleType lastError totalRetryCaptcha, sv)
  | Datatypes.S remaining' =>
      let forceRefreshCaptcha := 1 <? attempt in
      match call_repository plate vehicleType options attempt
              forceRefreshCaptcha sv with
      | (inr result, sv1) => (with_retry_count totalRetryCaptcha result, sv1)
      | (inl err, sv1) =>
          let isRetryable := isRetryableError err in
          if negb isRetryable || (maxRetries <? attempt) then
            (error_result plate vehicleType (Some err) totalRetryCaptcha, sv1)
          else
            let sv2 := sleep (attempt * 2000) sv1 in
            if clears_captcha (JsError.message err) then
              retry_loop remaining' plate vehicleType maxRetries (attempt + 1)
                (LookupOptions.mk None (LookupOptions.saveCaptcha options))
                (Some err) (totalRetryCaptcha + 1) sv2
            else
              retry_loop remaining' plate vehicleType maxRetries (attempt + 1)
                options (Some err) totalRetryCaptcha sv2
      end
  end.

(** [lookupWithRetry]: [attempt] runs from 1 to [maxRetries + 1]. *)
Definition lookupWithRetry (plate vehicleType : jsstring)
    (options : LookupOptions.t) (maxRetries : Z)
  : Service S -> LookupResult.t * Service S :=
  retry_loop (Z.to_nat (maxRetries + 1)) plate vehicleType maxRetries 1
    options None 0.

(** The default value of [maxRetries]. *)
Definition default_maxRetries : Z := 5.

(** [validVehicleTypes.includes(vehicleType)] *)
Definition validVehicleTypes : list jsstring := [lit "1"; lit "2"; lit "3"].

(** [lookupByPlate] *)
Definition lookupByPlate (plate vehicleType : jsstring)
    (options : LookupOptions.t) : M (Service S) LookupResult.t :=
  if is_empty plate || is_empty vehicleType then
    mthrow (Error (lit "Plate and vehicleType are required"))
  else if negb (bool_decide (vehicleType ∈ validVehicleTypes)) then
    mthrow (Error (lit "Invalid vehicle type. Must be 1 (Car), 2 (Motorcycle), or 3 (Electric bicycle)"))
  else
    let cleanPlate := toUpperCase (remove_spaces_and_dashes plate) in
    fun sv =>
      let '(result, sv') :=
        lookupWithRetry cleanPlate vehicleType options default_maxRetries sv in
      match LookupResult.status result, LookupResult.data result with
      | ok, Some d =>
          (inr (LookupResult.mk ok (LookupResult.message result)
                  (Some (LookupData.set_lookupTime_source
                           (toISOString_now (violationRepository sv'))
                           (lit "csgt.vn") d))),
           sv')
      | _, _ => (inr result, sv')
      end.
End Service.
End ViolationService.

(** The service as the controllers, the bot and the scheduler make it. *)
Module App.

(** [new ViolationService()], in the world [w]: the service makes its
    repository, which makes its client. *)
Definition new_ViolationService (E : Env) (w : World E) : Service (Repo E) :=
  ViolationService.new (ViolationRepository.new E w).

(** [new Date().toISOString()], read from the world the repository is
    in. *)
Definition now (E : Env) (repo : Repo E) : jsstring := clock E (world repo).

(** [violationService.lookupByPlate(plate, vehicleType, options)] *)
Definition lookupByPlate (E : Env) (plate vehicleType : jsstring)
    (options : LookupOptions.t) : M (Service (Repo E)) LookupResult.t :=
  ViolationService.lookupByPlate (now E) plate vehicleType options.

End App.

(* ===================================================================== *)
(** ** Execution and diff service (services/cronJobExecutionService.ts) *)
(* ===================================================================== *)

Module LookupHistory.
Record t := mk {
  id : Z;
  cronJobId : Z;
  violations : jsstring;
  totalViolations : Z;
  totalPaidViolations : Z;
  totalUnpaidViolations : Z;
  lookupTime : Z;
  hasNewViolations : bool }.
End LookupHistory.

Module DatabaseResult.
Record t (A : Type) := mk {
  success : bool;
  data : option A;
  error : option jsstring }.
Arguments mk {A} _ _ _.
Arguments success {A} _.
Arguments data {A} _.
Arguments error {A} _.
End DatabaseResult.

Module Database.

(** The row with the latest [lookupTime] (the first such row of the
    table, where several are equally late). *)
Fixpoint latest (rows : list LookupHistory.t) : option LookupHistory.t :=
  match rows with
  | [] => None
  | r :: rows' =>
      match latest rows' with
      | Some r' =>
          if LookupHistory.lookupTime r <? LookupHistory.lookupTime r'
          then Some r' else Some r
      | None => Some r
      end
  end.

(** [getLatestLookupHistory] over the rows of the table [lookupHistory]:
    [SELECT * ... WHERE cronJobId = ? ORDER BY lookupTime DESC LIMIT 1].
    A failure of the database itself, which the source reports with
    [success: false] as well, is not modelled. *)
Definition getLatestLookupHistory (lookupHistory : list LookupHistory.t)
    (cronJobId : Z) : DatabaseResult.t LookupHistory.t :=
  let row :=
    latest (List.filter (fun r => LookupHistory.cronJobId r =? cronJobId)
              lookupHistory) in
  match row with
  | None =>
      DatabaseResult.mk false None (Some (lit "No lookup history found"))
  | Some r => DatabaseResult.mk true (Some r) None
  end.

End Database.

Module CronJobComparisonResult.
Record t := mk {
  hasChanges : bool;
  newViolations : list Violation.t;
  removedViolations : list Violation.t;
  totalViolations : Z;
  totalPaidViolations : Z;
  totalUnpaidViolations : Z }.
End CronJobComparisonResult.

Module Comparison.
Record t := mk {
  hasChanges : bool;
  newViolations : list Violation.t;
  removedViolations : list Violation.t }.
End Comparison.

Module CronJobExecutionService.

(** [getViolationKey]: the template
    [`${violation.violationNumber || ''}-${violation.violationTime || ''}`];
    a number that is absent or zero prints as the empty string. *)
Definition getViolationKey (violation : Violation.t) : jsstring :=
  (match Violation.violationNumber violation with
   | Some n => if n =? 0 then [] else Number_toString n
   | None => []
   end)
  ++ lit "-"
  ++ opt_or (Violation.violationTime violation) [].

(** [new Map(entries)]: the entries are set one after the other, a later
    one replacing an earlier one with the same key. *)
Definition new_Map (entries : list (jsstring * Violation.t))
  : gmap jsstring Violation.t :=
  fold_left (fun m kv => <[kv.1 := kv.2]> m) entries ∅.

(** [map.has(key)] *)
Definition Map_has (m : gmap jsstring Violation.t) (key : jsstring) : bool :=
  present (m !! key).

(** [compareViolations] *)
Definition compareViolations (previous current : list Violation.t)
  : Comparison.t :=
  let previousMap := new_Map (map (fun v => (getViolationKey v, v)) previous) in
  let currentMap := new_Map (map (fun v => (getViolationKey v, v)) current) in
  let newViolations :=
    List.filter (fun v => negb (Map_has previousMap (getViolationKey v))) current in
  let removedViolations :=
    List.filter (fun v => negb (Map_has currentMap (getViolationKey v))) previous in
  let hasChanges :=
    (0 <? Z.of_nat (length newViolations))
    || (0 <? Z.of_nat (length removedViolations)) in
  Comparison.mk hasChanges newViolations removedViolations.

Section Compare.
(** [JSON.parse] of a stored snapshot, as the array of violations it
    holds; [None] when it throws, or when what it returns is not an
    array (so that [previous.map] throws). *)
Variable JSON_parse : jsstring -> option (list Violation.t).

(** [currentResult.data?.violations || []] *)
Definition violations_of (currentResult : LookupResult.t) : list Violation.t :=
  match LookupResult.data currentResult with
  | Some d => default [] (LookupData.violations d)
  | None => []
  end.

(** [currentResult.data?.<count> || 0] *)
Definition count_of (field : LookupData.t -> option Z)
    (currentResult : LookupResult.t) : Z :=
  match LookupResult.data currentResult with
  | Some d => default 0 (field d)
  | None => 0
  end.

(** The result returned when there is nothing to compare with, and by
    the [catch]. *)
Definition all_new (currentResult : LookupResult.t) : CronJobComparisonResult.t :=
  CronJobComparisonResult.mk true (violations_of currentResult) []
    (count_of LookupData.totalViolations currentResult)
    (count_of LookupData.totalPaidViolations currentResult)
    (count_of LookupData.totalUnpaidViolations currentResult).

(** [compareWithPreviousLookup], over the rows of the history table. *)
Definition compareWithPreviousLookup (lookupHistory : list LookupHistory.t)
    (cronJobId : Z) (currentResult : LookupResult.t)
  : CronJobComparisonResult.t :=
  let historyResult := Database.getLatestLookupHistory lookupHistory cronJobId in
  if negb (DatabaseResult.success historyResult) then all_new currentResult
  else
    match DatabaseResult.data historyResult with
    | None => all_new currentResult
    | Some previousHistory =>
        match JSON_parse (LookupHistory.violations previousHistory) with
        | None => all_new currentResult
        | Some previousViolations =>
            let currentViolations := violations_of currentResult in
            let comparison :=
              compareViolations previousViolations currentViolations in
            CronJobComparisonResult.mk
              (Comparison.hasChanges comparison)
              (Comparison.newViolations comparison)
              (Comparison.removedViolations comparison)
              (count_of LookupData.totalViolations currentResult)
              (count_of LookupData.totalPaidViolations currentResult)
              (count_of LookupData.totalUnpaidViolations currentResult)
        end
    end.
End Compare.

End CronJobExecutionService.

(* ===================================================================== *)
(** ** Scenarios *)
(* ===================================================================== *)

Module Scenario.

(** A page of results without the violation container. *)
Definition empty_page : jsstring := lit "<html><body></body></html>".

(** A response with status 200 and nothing in it. *)
Definition blank : Http.Response :=
  {| Http.status := 200; Http.set_cookie := []; Http.content_type := None;
     Http.data_bytes := []; Http.data_html := []; Http.data_success := false;
     Http.data_href := None; Http.data_json := lit "{}" |}.

(** The answers of a site that works: an image for the captcha, a
    successful validation that points to the result page, and that
    page. *)
Definition answer (req : Http.Request) : Http.Response :=
  if bool_decide (Http.url req = Config.captchaEndpoint) then
    {| Http.status := 200; Http.set_cookie := [];
       Http.content_type := Some (lit "image/png");
       Http.data_bytes := [137; 80; 78; 71]%N; Http.data_html := [];
       Http.data_success := false; Http.data_href := None;
       Http.data_json := [] |}
  else if bool_decide (Http.url req = Config.ajaxValidateUrl) then
    {| Http.status := 200; Http.set_cookie := []; Http.content_type := None;
       Http.data_bytes := []; Http.data_html := [];
       Http.data_success := true;
       Http.data_href := Some (lit "https://www.csgt.vn/tra-cuu-phuong-tien-vi-pham.html?&LoaiXe=1&BienKiemSoat=51K67179");
       Http.data_json := lit "{}" |}
  else
    {| Http.status := 200; Http.set_cookie := []; Http.content_type := None;
       Http.data_bytes := []; Http.data_html := empty_page;
       Http.data_success := false; Http.data_href := None;
       Http.data_json := [] |}.

(** The OCR engine reads the same text from every image, with high
    confidence. *)
Definition ocr (w : nat)
  : (JsError.t + CaptchaSolver.RecognizeData) * nat :=
  (inr {| CaptchaSolver.text := lit "xK7p2"; CaptchaSolver.confidence := 91 |}, w).

(** A site whose very first answer is a 500, and which works from then
    on. The world counts the requests served. *)
Definition outage : Env :=
  {| World := nat;
     http := fun req w =>
       (Http.Responded
          (if Nat.eqb w 0 then
             {| Http.status := 500; Http.set_cookie := [];
                Http.content_type := None; Http.data_bytes := [];
                Http.data_html := []; Http.data_success := false;
                Http.data_href := None; Http.data_json := [] |}
           else answer req),
        Datatypes.S w);
     recognize := fun _ w => ocr w;
     autocaptcha_post := fun _ _ w =>
       (inl (Error (lit "connect ECONNREFUSED")), w);
     clock := fun _ => lit "2025-01-01T00:00:00.000Z";
     select_formGroups := fun _ => None;
     defaultMethod := CaptchaSolver.tesseract;
     autocaptcha_key := [] |}.

(** A site that works, and that hands out a session cookie with its
    first answer only. *)
Definition session_site : Env :=
  {| World := nat;
     http := fun req w =>
       (Http.Responded
          (if Nat.eqb w 0 then
             {| Http.status := 200;
                Http.set_cookie := [(lit "PHPSESSID", lit "k3q9")];
                Http.content_type := None; Http.data_bytes := [];
                Http.data_html := []; Http.data_success := false;
                Http.data_href := None; Http.data_json := [] |}
           else answer req),
        Datatypes.S w);
     recognize := fun _ w => ocr w;
     autocaptcha_post := fun _ _ w =>
       (inl (Error (lit "connect ECONNREFUSED")), w);
     clock := fun _ => lit "2025-01-01T00:00:00.000Z";
     select_formGroups := fun _ => None;
     defaultMethod := CaptchaSolver.tesseract;
     autocaptcha_key := [] |}.

(** A site that works, except that it answers the validation request
    with status 403. *)
Definition forbidden_site : Env :=
  {| World := nat;
     http := fun req w =>
       (Http.Responded
          (if bool_decide (Http.url req = Config.ajaxValidateUrl) then
             {| Http.status := 403; Http.set_cookie := [];
                Http.content_type := None; Http.data_bytes := [];
                Http.data_html := []; Http.data_success := false;
                Http.data_href := None; Http.data_json := [] |}
           else answer req),
        Datatypes.S w);
     recognize := fun _ w => ocr w;
     autocaptcha_post := fun _ _ w =>
       (inl (Error (lit "connect ECONNREFUSED")), w);
     clock := fun _ => lit "2025-01-01T00:00:00.000Z";
     select_formGroups := fun _ => None;
     defaultMethod := CaptchaSolver.tesseract;
     autocaptcha_key := [] |}.

(** A site that is down: every request is answered with status 500. *)
Definition down_site : Env :=
  {| World := nat;
     http := fun req w =>
       (Http.Responded
          {| Http.status := 500; Http.set_cookie := [];
             Http.content_type := None; Http.data_bytes := [];
             Http.data_html := []; Http.data_success := false;
             Http.data_href := None; Http.data_json := [] |},
        Datatypes.S w);
     recognize := fun _ w => ocr w;
     autocaptcha_post := fun _ _ w =>
       (inl (Error (lit "connect ECONNREFUSED")), w);
     clock := fun _ => lit "2025-01-01T00:00:00.000Z";
     select_formGroups := fun _ => None;
     defaultMethod := CaptchaSolver.tesseract;
     autocaptcha_key := [] |}.

(** A repository stub whose every call throws a server error; the state
    counts the calls, and call number [n] reports status [500 + n]. *)
Definition always_ServerError : Repository nat :=
  {| lookupViolations := fun _ _ _ _ n =>
       (inl (ViolationRepository.ServerError (500 + Z.of_nat n)),
        Datatypes.S n) |}.

(** Options with a captcha typed in by the caller. *)
Definition manual : LookupOptions.t :=
  LookupOptions.mk (Some (lit "ABC123")) None.

(** Options as the scheduler passes them: [{}]. *)
Definition no_options : LookupOptions.t := LookupOptions.mk None None.

(** A violation with the given number, time and status, and nothing
    else. *)
Definition violation_at (number : Z) (time status : jsstring) : Violation.t :=
  Violation.mk (Some (lit "51K-671.79")) (Some number) None None (Some time)
    (Some (lit "Nguyen Van Linh - Quan 7"))
    (Some (lit "Khong chap hanh hieu lenh cua den tin hieu giao thong"))
    (Some status) None None None None None None None.

(** One violation paid, one unpaid, one without status. *)
Definition three_statuses : list Violation.t :=
  [violation_at 1 (lit "08:15, 02/03/2025") (lit "Đã xử phạt");
   violation_at 2 (lit "17:40, 11/04/2025") (lit "Chưa nộp phạt");
   violation_at 3 (lit "09:05, 20/05/2025") []].

(** The result of a lookup that found one unpaid violation. *)
Definition found_one : list Violation.t :=
  [violation_at 1 (lit "08:15, 02/03/2025") (lit "Chưa xử phạt")].

Definition found_one_data : LookupData.t :=
  LookupData.mk (lit "51K67179") (lit "1") (Some (lit "xK7p2")) (Some found_one)
    (Some 1) (Some 0) (Some 1) None None (Some 0).

(** A history table that holds one row, of job 7. *)
Definition history_of_job_7 : list LookupHistory.t :=
  [LookupHistory.mk 1 7 (lit "[]") 0 0 0 1735689600 false].

End Scenario.

(* ===================================================================== *)
(** ** Reading journals and traces *)
(* ===================================================================== *)

Module Observe.

(** The attempt numbers of a journal, in order. *)
Definition attempt_numbers (j : list Step) : list Z :=
  omap (fun s => match s with attempted n _ _ _ => Some n | slept _ => None end) j.

(** How the attempts of a journal ended, in order. *)
Definition outcomes (j : list Step) : list (JsError.t + LookupResult.t) :=
  omap (fun s => match s with attempted _ _ _ o => Some o | slept _ => None end) j.

(** The number of attempts made with [forceRefreshCaptcha] set. *)
Definition forced_refreshes (j : list Step) : nat :=
  length (List.filter
            (fun s => match s with attempted _ f _ _ => f | slept _ => false end)
            j).

(** The value of [forceRefreshCaptcha] at each attempt, in order. *)
Definition forced_flags (j : list Step) : list bool :=
  omap (fun s => match s with attempted _ f _ _ => Some f | slept _ => None end) j.

(** The captcha text the options held at each attempt, in order. *)
Definition captchas_given (j : list Step) : list (option jsstring) :=
  omap (fun s => match s with attempted _ _ c _ => Some c | slept _ => None end) j.

(** The waits of a journal, in order. *)
Definition waits (j : list Step) : list Z :=
  omap (fun s => match s with slept ms => Some ms | _ => None end) j.

(** The HTTP requests of a trace, in order. *)
Definition requests (tr : list Event) : list Http.Request :=
  omap (fun e => match e with ev_request r => Some r | _ => None end) tr.

(** How many times a captcha was handed to a solver. *)
Definition solver_calls (tr : list Event) : nat :=
  length (List.filter
            (fun e => match e with ev_request _ => false | _ => true end) tr).

(** The value of the form field [captcha] of a request. *)
Definition captcha_sent (r : Http.Request) : option jsstring :=
  snd <$> List.find (fun kv => bool_decide (kv.1 = lit "captcha")) (Http.form r).

(** The method and address of a request. *)
Definition target (r : Http.Request) : Http.Method * jsstring :=
  (Http.method r, Http.url r).

(** The number of violations of a list whose status is [s]. *)
Definition with_status (s : jsstring) (violations : list Violation.t) : Z :=
  Z.of_nat (length (List.filter
                      (fun v => bool_decide (Violation.status v = Some s))
                      violations)).

(** The number of violations of a list without a status, or with an
    empty one. *)
Definition without_status (violations : list Violation.t) : Z :=
  Z.of_nat (length (List.filter
                      (fun v => negb (truthy (Violation.status v)))
                      violations)).

(** A computation over a repository only adds to the trace. *)
Definition grows {E : Env} {A : Type} (m : M (Repo E) A) : Prop :=
  forall st, trace st `prefix_of` trace (m st).2.

(** The world after it answered the events [tr], from the world [w]
    on. *)
Fixpoint world_after {E : Env} (w : World E) (tr : list Event) : World E :=
  match tr with
  | [] => w
  | ev_request r :: tr' => world_after (http E r w).2 tr'
  | ev_recognize image :: tr' => world_after (recognize E image w).2 tr'
  | ev_autocaptcha image contentType :: tr' =>
      world_after (autocaptcha_post E image contentType w).2 tr'
  end.

(** The cookies a reply sets. *)
Definition cookies_of (reply : Http.Reply) : list (jsstring * jsstring) :=
  match reply with
  | Http.Responded r => Http.set_cookie r
  | Http.Failed _ _ => []
  end.

(** The cookies that the site sets in its replies to the requests among
    the events [tr], in the order of the replies, when the events
    happen from the world [w] on. *)
Fixpoint cookies_received {E : Env} (w : World E) (tr : list Event)
  : list (jsstring * jsstring) :=
  match tr with
  | [] => []
  | ev_request r :: tr' =>
      cookies_of (http E r w).1 ++ cookies_received (http E r w).2 tr'
  | ev_recognize image :: tr' => cookies_received (recognize E image w).2 tr'
  | ev_autocaptcha image contentType :: tr' =>
      cookies_received (autocaptcha_post E image contentType w).2 tr'
  end.

(** The repository [st'] is the repository [st] some events later: its
    trace is the trace of [st] and those events, its world is what
    they made of the world of [st], and its jar is the jar of [st]
    with the cookies received on the way stored in it. *)
Definition follows {E : Env} (st st' : Repo E) : Prop :=
  exists new,
    trace st' = trace st ++ new
    /\ world st' = world_after (world st) new
    /\ jar st' = Http.store (jar st) (cookies_received (world st) new).

(** A computation over a repository that leaves it as [follows] says. *)
Definition accumulates {E : Env} {A : Type} (m : M (Repo E) A) : Prop :=
  forall st, follows st (m st).2.

(** The service after the lookups [calls], made one after the other. *)
Definition after_lookups (E : Env)
    (calls : list (jsstring * jsstring * LookupOptions.t))
    (sv : Service (Repo E)) : Service (Repo E) :=
  fold_left (fun sv call =>
               (App.lookupByPlate E call.1.1 call.1.2 call.2 sv).2)
    calls sv.

End Observe.

(* ===================================================================== *)
(** * Properties *)
(* ===================================================================== *)

(** ** Strings *)

Lemma startsWith_app (p s : jsstring) : startsWith p (p ++ s) = true.
Proof.
  induction p as [|c p IH]; simpl; [done|].
  by rewrite N.eqb_refl, IH.
Qed.

Lemma includes_start (s p : jsstring) : startsWith p s = true -> includes s p = true.
Proof. intros Hp. destruct s; simpl; by rewrite Hp. Qed.

Lemma includes_app (a p b : jsstring) : includes (a ++ p ++ b) p = true.
Proof.
  induction a as [|c a IH]; simpl.
  - apply includes_start, startsWith_app.
  - rewrite IH. apply orb_true_r.
Qed.

Lemma app_not_empty (a b : jsstring) : is_empty b = false -> is_empty (a ++ b) = false.
Proof. destruct a, b; simpl; congruence. Qed.

Lemma take_drop_part (s : jsstring) (lo n : nat) :
  s = take lo s ++ take n (drop lo s) ++ drop n (drop lo s).
Proof. by rewrite (take_drop n), (take_drop lo). Qed.

(** A [substring] is a contiguous part of the string. *)
Lemma substring_part (s : jsstring) (a b : Z) :
  exists before after, s = before ++ substring s a b ++ after.
Proof.
  unfold substring. eexists _, _. apply take_drop_part.
Qed.

(** ** More on strings *)

Lemma startsWith_true (p s : jsstring) :
  startsWith p s = true <-> exists b, s = p ++ b.
Proof.
  split.
  - revert s. induction p as [|x p IH]; intros s Hp; [by exists s|].
    destruct s as [|y s]; [done|]. simpl in Hp.
    apply andb_true_iff in Hp as [Hxy Hp]. apply N.eqb_eq in Hxy as ->.
    destruct (IH s Hp) as [b ->]. by exists b.
  - intros [b ->]. apply startsWith_app.
Qed.

Lemma includes_true (s p : jsstring) :
  includes s p = true <-> exists a b, s = a ++ p ++ b.
Proof.
  split.
  - induction s as [|c s IH]; simpl; intros Hs.
    + rewrite orb_false_r in Hs. apply startsWith_true in Hs as [b Hb].
      by exists [], b.
    + apply orb_true_iff in Hs as [Hs|Hs].
      * apply startsWith_true in Hs as [b Hb]. by exists [], b.
      * destruct (IH Hs) as (a & b & ->). by exists (c :: a), b.
  - intros (a & b & ->). apply includes_app.
Qed.

(** A string that includes a phrase includes every part of the phrase. *)
Lemma includes_part (s x p y : jsstring) :
  includes s (x ++ p ++ y) = true -> includes s p = true.
Proof.
  intros Hs. apply includes_true in Hs as (a & b & ->).
  apply includes_true. exists (a ++ x), (y ++ b). by rewrite <- !app_assoc.
Qed.

Lemma toLowerCase_app (a b : jsstring) :
  toLowerCase (a ++ b) = toLowerCase a ++ toLowerCase b.
Proof. unfold toLowerCase. apply flat_map_app. Qed.

(** Lower-casing keeps inclusion. *)
Lemma includes_toLowerCase (s p : jsstring) :
  includes s p = true -> includes (toLowerCase s) (toLowerCase p) = true.
Proof.
  intros Hs. apply includes_true in Hs as (a & b & ->).
  rewrite !toLowerCase_app. apply includes_app.
Qed.

Lemma includes_nil_l (p : jsstring) : p <> [] -> includes [] p = false.
Proof. by destruct p. Qed.

(** ** [indexOf] and [substring] *)

Lemma startsWith_length (p s : jsstring) :
  startsWith p s = true -> (length p <= length s)%nat.
Proof.
  intros Hp. apply startsWith_true in Hp as [b ->]. rewrite length_app. lia.
Qed.

(** [indexOf] answers -1 exactly for a phrase that the string lacks. *)
Lemma indexOf_from_absent (s p : jsstring) (i : Z) :
  includes s p = false -> indexOf_from s p i = -1.
Proof.
  revert i. induction s as [|c s IH]; intros i Hs; simpl in *;
    apply orb_false_iff in Hs as [Hstart Hrest]; rewrite Hstart; auto.
Qed.

(** Otherwise it answers the place of the first occurrence. *)
Lemma indexOf_from_first (s p : jsstring) (i : Z) :
  includes s p = true ->
  exists n : nat,
    indexOf_from s p i = i + Z.of_nat n
    /\ startsWith p (drop n s) = true
    /\ (forall k : nat, (k < n)%nat -> startsWith p (drop k s) = false).
Proof.
  revert i. induction s as [|c s IH]; intros i Hs; simpl in Hs.
  - rewrite orb_false_r in Hs. exists 0%nat. simpl. rewrite Hs.
    split; [lia|]. split; [done|]. intros k Hk. lia.
  - destruct (startsWith p (c :: s)) eqn:Hstart.
    + exists 0%nat. simpl. rewrite Hstart.
      split; [lia|]. split; [done|]. intros k Hk. lia.
    + simpl in Hs. destruct (IH (i + 1) Hs) as (n & Hn & Hat & Hbefore).
      exists (S n). simpl. rewrite Hstart.
      split; [lia|]. split; [exact Hat|].
      intros [|k] Hk; [exact Hstart | apply Hbefore; lia].
Qed.

Lemma take_min (s : jsstring) (n : nat) :
  take (n `min` length s) s = take n s.
Proof.
  destruct (Nat.le_ge_cases n (length s)) as [Hle|Hge].
  - by rewrite Nat.min_l.
  - rewrite Nat.min_r by done. rewrite !take_ge; [done | lia | lia].
Qed.

(** [s.substring(-1, 499)] is the first 499 units of [s]. *)
Lemma substring_absent (s : jsstring) :
  substring s (-1) (-1 + 500) = take 499 s.
Proof.
  unfold substring. cbv zeta.
  replace (Z.to_nat _) with (499 `min` length s)%nat by lia.
  replace (Z.to_nat _) with 0%nat by lia.
  apply take_min.
Qed.

(** [s.substring(n, n + 500)] is the 500 units of [s] from [n] on. *)
Lemma substring_from (s : jsstring) (n : nat) :
  (n <= length s)%nat ->
  substring s (Z.of_nat n) (Z.of_nat n + 500) = take 500 (drop n s).
Proof.
  intros Hn. unfold substring. cbv zeta.
  replace (Z.to_nat (_ - _)) with (500 `min` length (drop n s))%nat
    by (rewrite length_drop; lia).
  replace (Z.to_nat _) with n by lia.
  apply take_min.
Qed.

(** The excerpt taken by the fallback branch of [parseResultHtml]. *)
Lemma fallback_excerpt (html p : jsstring) :
  let excerpt := substring html (indexOf html p) (indexOf html p + 500) in
  (length excerpt <= 500)%nat
  /\ (includes html p = false -> excerpt = take 499 html)
  /\ (includes html p = true ->
      exists n : nat,
        startsWith p (drop n html) = true
        /\ (forall k : nat, (k < n)%nat -> startsWith p (drop k html) = false)
        /\ excerpt = take 500 (drop n html)).
Proof.
  cbv zeta. unfold indexOf.
  destruct (includes html p) eqn:Hp.
  - destruct (indexOf_from_first html p 0 Hp) as (n & Hn & Hat & Hbefore).
    rewrite Hn, Z.add_0_l.
    assert (n <= length html)%nat as Hle.
    { apply startsWith_length in Hat. rewrite length_drop in Hat.
      destruct (Nat.le_gt_cases n (length html)); [done|].
      destruct p; [|simpl in Hat; lia].
      specialize (Hbefore 0%nat). simpl in Hbefore. destruct n; [lia|].
      by specialize (Hbefore ltac:(lia)). }
    rewrite (substring_from html n Hle).
    split; [rewrite length_take; lia|]. split; [done|].
    intros _. by exists n.
  - rewrite (indexOf_from_absent html p 0 Hp), substring_absent.
    split; [rewrite length_take; lia|]. split; [done|]. done.
Qed.

(** ** Captcha-solving adapter *)

(** The caller of [solveWithTesseract] receives the corrected text when
    the confidence is under 50 and the cleaned text otherwise, and
    nothing else. *)
Lemma solveWithTesseract_O0I1 (c : Z) :
  (CaptchaSolver.solveWithTesseract
     (inr {| CaptchaSolver.text := lit "O0I1"; CaptchaSolver.confidence := c |})).2
  = inr (if c <? 50 then lit "0OIl" else lit "O0I1").
Proof.
  unfold CaptchaSolver.solveWithTesseract, CaptchaSolver.after_recognize.
  cbn [CaptchaSolver.text CaptchaSolver.confidence].
  replace (is_empty (remove_spaces (trim (lit "O0I1")))) with false
    by (vm_compute; reflexivity).
  cbv zeta. destruct (c <? 50); vm_compute; reflexivity.
Qed.

(** C8, as stated, fails: no signal reaches the caller. Whatever the
    caller computes from the value it receives, it cannot tell a
    confidence of 25 from one of 40 on the raw text "O0I1", so no
    function of that value reports "confidence under 30". *)
Lemma C8_no_signal_reaches_caller :
  ~ exists signal : JsError.t + jsstring -> bool,
      forall d : CaptchaSolver.RecognizeData,
        signal (CaptchaSolver.solveWithTesseract (inr d)).2
        = (CaptchaSolver.confidence d <? 30).
Proof.
  intros [signal Hsignal].
  pose proof (Hsignal {| CaptchaSolver.text := lit "O0I1";
                         CaptchaSolver.confidence := 25 |}) as H25.
  pose proof (Hsignal {| CaptchaSolver.text := lit "O0I1";
                         CaptchaSolver.confidence := 40 |}) as H40.
  rewrite solveWithTesseract_O0I1 in H25, H40.
  cbn in H25, H40. congruence.
Qed.

(** C8, amended: at confidence 25 on the raw text "O0I1" the adapter
    applies the correction table, so that the text returned, "0OIl",
    differs from the raw text; the low confidence is written to the
    console as a warning and only there: the value returned is the
    corrected text alone, the same at every confidence under 50. *)
Theorem C8_low_confidence_corrected_and_logged :
  let run :=
    CaptchaSolver.solveWithTesseract
      (inr {| CaptchaSolver.text := lit "O0I1"; CaptchaSolver.confidence := 25 |}) in
  run.2 = inr (lit "0OIl")
  /\ lit "0OIl" <> lit "O0I1"
  /\ run.1 = [CaptchaSolver.console_warn
                (lit "[WARN] Low confidence score: 25% - result might be inaccurate")]
  /\ forall c : Z,
       (CaptchaSolver.solveWithTesseract
          (inr {| CaptchaSolver.text := lit "O0I1";
                  CaptchaSolver.confidence := c |})).2
       = if c <? 50 then run.2 else inr (lit "O0I1").
Proof.
  cbv zeta. split; [vm_compute; reflexivity|].
  split; [vm_compute; discriminate|].
  split; [vm_compute; reflexivity|].
  intros c. rewrite !solveWithTesseract_O0I1. by destruct (c <? 50).
Qed.

(** ** Result extractor *)

Lemma count_fold (f : Violation.t -> bool) (l : list Violation.t) (a : Z) :
  fold_left (fun acc v => acc + (if f v then 1 else 0)) l a
  = a + Z.of_nat (length (List.filter f l)).
Proof.
  revert a. induction l as [|v l IH]; intros a; simpl; [lia|].
  rewrite IH. destruct (f v); simpl; lia.
Qed.

Lemma totalPaidViolations_count (violations : list Violation.t) :
  ViolationCounts.totalPaidViolations (HtmlParser.calculateViolationCounts violations)
  = Z.of_nat (length (List.filter (fun v => HtmlParser.isPaid (Violation.status v))
                        violations)).
Proof. unfold HtmlParser.calculateViolationCounts. simpl. by rewrite count_fold. Qed.

Lemma totalUnpaidViolations_count (violations : list Violation.t) :
  ViolationCounts.totalUnpaidViolations (HtmlParser.calculateViolationCounts violations)
  = Z.of_nat (length (List.filter (fun v => HtmlParser.isUnpaid (Violation.status v))
                        violations)).
Proof. unfold HtmlParser.calculateViolationCounts. simpl. by rewrite count_fold. Qed.

(** Putting one more violation into a list, at any place, adds to each
    count what [isPaid] and [isUnpaid] say of its status. *)
Lemma counts_insert (before after : list Violation.t) (v : Violation.t) :
  ViolationCounts.totalPaidViolations
    (HtmlParser.calculateViolationCounts (before ++ v :: after))
  = ViolationCounts.totalPaidViolations
      (HtmlParser.calculateViolationCounts (before ++ after))
    + (if HtmlParser.isPaid (Violation.status v) then 1 else 0)
  /\ ViolationCounts.totalUnpaidViolations
       (HtmlParser.calculateViolationCounts (before ++ v :: after))
     = ViolationCounts.totalUnpaidViolations
         (HtmlParser.calculateViolationCounts (before ++ after))
       + (if HtmlParser.isUnpaid (Violation.status v) then 1 else 0).
Proof.
  rewrite !totalPaidViolations_count, !totalUnpaidViolations_count.
  rewrite !List.filter_app. cbn [List.filter].
  destruct (HtmlParser.isPaid _), (HtmlParser.isUnpaid _);
    rewrite !length_app; cbn [length]; lia.
Qed.

Lemma isPaid_phrases (status : jsstring) :
  HtmlParser.isPaid (Some status)
  = negb (is_empty status)
    && existsb (includes (toLowerCase status))
         [lit "đã xử phạt"; lit "đã nộp"; lit "paid"; lit "processed";
          lit "resolved"].
Proof.
  unfold HtmlParser.isPaid. cbn [truthy opt_or or_else existsb].
  destruct status; cbn [is_empty negb andb]; [reflexivity|].
  by rewrite !orb_assoc, orb_false_r.
Qed.

Lemma isUnpaid_phrases (status : jsstring) :
  HtmlParser.isUnpaid (Some status)
  = negb (is_empty status)
    && existsb (includes (toLowerCase status))
         [lit "chưa xử phạt"; lit "chưa nộp"; lit "not"; lit "unpaid";
          lit "not yet"].
Proof.
  unfold HtmlParser.isUnpaid. cbn [truthy opt_or or_else existsb].
  destruct status; cbn [is_empty negb andb]; [reflexivity|].
  by rewrite !orb_assoc, orb_false_r.
Qed.

(** A status that has, in any letter case and at any place, one of the
    phrases of a set is matched by the set. *)
Lemma phrase_matched (phrases : list jsstring) (before phrase after : jsstring) :
  Forall (fun p => p <> []) phrases ->
  toLowerCase phrase ∈ phrases ->
  negb (is_empty (before ++ phrase ++ after))
  && existsb (includes (toLowerCase (before ++ phrase ++ after))) phrases
  = true.
Proof.
  intros Hsome Hin. apply andb_true_iff. split.
  - rewrite Forall_forall in Hsome. apply Hsome in Hin.
    destruct phrase; [done|]. by destruct before.
  - apply existsb_exists. exists (toLowerCase phrase).
    split; [by apply list_elem_of_In|].
    rewrite !toLowerCase_app. apply includes_app.
Qed.



(** C10: when the violation container yields no record, [parseResultHtml]
    returns the empty list exactly when the page lacks "Đội CSGT"; when
    the page has it, the result is the single fallback record: empty
    plate, number 0, the diagnostic message, and as [rawPreview] an
    excerpt of the page. The excerpt is a contiguous part of the page of
    at most 500 units, and it is not empty on a page that has
    "Đội CSGT": on a page with "Biển kiểm soát" it is the 500 units from
    the first occurrence of that phrase on, and on a page without the
    phrase it is the first 499 units of the page. *)
Theorem C10_parser_fallback
    (select : jsstring -> option (list HtmlParser.FormGroup)) (html : jsstring) :
  HtmlParser.parse_container (select html) = [] ->
  HtmlParser.parseResultHtml select html
  = (if includes html (lit "Đội CSGT") then [HtmlParser.fallback_record html]
     else [])
  /\ (HtmlParser.parseResultHtml select html = []
      <-> includes html (lit "Đội CSGT") = false)
  /\ Violation.plate (HtmlParser.fallback_record html) = Some []
  /\ Violation.violationNumber (HtmlParser.fallback_record html) = Some 0
  /\ Violation.message (HtmlParser.fallback_record html)
     = Some (lit "Violation found - need to parse HTML structure in more detail")
  /\ exists excerpt,
       Violation.rawPreview (HtmlParser.fallback_record html) = Some excerpt
       /\ (exists before after, html = before ++ excerpt ++ after)
       /\ (length excerpt <= 500)%nat
       /\ (includes html (lit "Đội CSGT") = true -> excerpt <> [])
       /\ (includes html (lit "Biển kiểm soát") = false ->
           excerpt = take 499 html)
       /\ (includes html (lit "Biển kiểm soát") = true ->
           exists n : nat,
             startsWith (lit "Biển kiểm soát") (drop n html) = true
             /\ (forall k : nat,
                   (k < n)%nat ->
                   startsWith (lit "Biển kiểm soát") (drop k html) = false)
             /\ excerpt = take 500 (drop n html)).
Proof.
  intros Hnone. unfold HtmlParser.parseResultHtml. rewrite Hnone.
  cbn [length Nat.eqb app].
  split; [reflexivity|]. split.
  { destruct (includes html (lit "Đội CSGT")); split; congruence. }
  do 3 (split; [reflexivity|]).
  unfold HtmlParser.fallback_record. cbn [Violation.rawPreview].
  remember (lit "Đội CSGT") as unit eqn:Hunit.
  remember (lit "Biển kiểm soát") as phrase eqn:Hphrase.
  destruct (fallback_excerpt html phrase) as (Hlength & Habsent & Hfirst).
  eexists. split; [reflexivity|].
  split; [apply substring_part|]. split; [exact Hlength|].
  split; [|split; [exact Habsent | exact Hfirst]].
  intros Hhas Hnil.
  assert (Hpage : (length unit <= length html)%nat /\ unit <> []).
  { apply includes_true in Hhas as (a & b & ->). rewrite !length_app.
    split; [lia|]. rewrite Hunit. vm_compute. discriminate. }
  destruct Hpage as [Hpage Hsome].
  destruct (includes html phrase) eqn:Hp.
  - destruct (Hfirst eq_refl) as (n & Hat & _ & Hexcerpt).
    rewrite Hexcerpt in Hnil. apply startsWith_true in Hat as [rest Hrest].
    rewrite Hrest, Hphrase in Hnil. vm_compute in Hnil. discriminate.
  - rewrite (Habsent eq_refl) in Hnil.
    destruct html as [|c html]; [|discriminate].
    destruct unit; [done | simpl in Hpage; lia].
Qed.

(** A page without the container that mentions a traffic police unit,
    for C10: the fallback record is the whole result, and the page being
    short and without "Biển kiểm soát", the excerpt is the whole page. *)
Lemma C10_parser_fallback_witness :
  let html := lit "<p>Đội CSGT số 1</p>" in
  HtmlParser.parse_container (select_formGroups Scenario.session_site html) = []
  /\ HtmlParser.parseResultHtml (select_formGroups Scenario.session_site) html
     = [HtmlParser.fallback_record html]
  /\ Violation.rawPreview (HtmlParser.fallback_record html) = Some html.
Proof.
  cbv zeta. split; [reflexivity|]. split.
  - apply (C10_parser_fallback (select_formGroups Scenario.session_site)
             (lit "<p>Đội CSGT số 1</p>")).
    reflexivity.
  - vm_compute. reflexivity.
Defined.

(** ** Execution and diff service *)

(** C3, as stated, fails: two readings of one violation (same time,
    place and description) that differ in their sequence number get
    different keys. *)
Lemma C3_key_changes_with_violationNumber :
  let first := Scenario.violation_at 1 (lit "08:15, 02/03/2025") (lit "Chưa xử phạt") in
  let second := Scenario.violation_at 2 (lit "08:15, 02/03/2025") (lit "Chưa xử phạt") in
  Violation.violationTime first = Violation.violationTime second
  /\ Violation.location first = Violation.location second
  /\ Violation.violation first = Violation.violation second
  /\ CronJobExecutionService.getViolationKey first
     <> CronJobExecutionService.getViolationKey second.
Proof. cbv zeta. repeat split. vm_compute. discriminate. Qed.

(** ** Decimal numerals *)

Lemma lit_ascii (s : string) :
  Forall (fun a => (N_of_ascii a < 128)%N) (list_ascii_of_string s) ->
  lit s = map N_of_ascii (list_ascii_of_string s).
Proof.
  unfold lit. induction 1 as [|a l Ha _ IH]; [reflexivity|].
  cbn [map utf8_decode]. apply N.ltb_lt in Ha. by rewrite Ha, IH.
Qed.

Lemma digits_of_uint (d : Decimal.uint) :
  Forall (fun a => (48 <= N_of_ascii a <= 57)%N)
    (list_ascii_of_string (NilEmpty.string_of_uint d)).
Proof.
  induction d; cbn [NilEmpty.string_of_uint list_ascii_of_string];
    constructor; try assumption; vm_compute; split; discriminate.
Qed.

Lemma digits_of_positive (p : positive) :
  Forall (fun a => (48 <= N_of_ascii a <= 57)%N)
    (list_ascii_of_string (NilZero.string_of_int (Z.to_int (Z.pos p)))).
Proof.
  cbn [Z.to_int NilZero.string_of_int]. unfold NilZero.string_of_uint.
  destruct (Pos.to_uint p) eqn:Hp; try (rewrite <- Hp; apply digits_of_uint).
  repeat constructor; vm_compute; discriminate.
Qed.

(** The numeral of a positive number is made of digits. *)
Lemma Number_toString_digits (n : Z) :
  0 < n -> Forall (fun c => (48 <= c <= 57)%N) (Number_toString n).
Proof.
  intros Hn. destruct n as [|p|p]; try lia. unfold Number_toString.
  pose proof (digits_of_positive p) as Hdigits.
  rewrite lit_ascii.
  - rewrite Forall_fmap. eapply Forall_impl; [exact Hdigits | done].
  - eapply Forall_impl; [exact Hdigits | simpl; lia].
Qed.

Lemma to_int_not_nil (n : Z) :
  Z.to_int n <> Decimal.Pos Decimal.Nil /\ Z.to_int n <> Decimal.Neg Decimal.Nil.
Proof.
  split; intros Hnil; pose proof (Stdlib.Numbers.DecimalZ.of_to n) as Hn;
    rewrite Hnil in Hn; cbn in Hn; subst n; discriminate.
Qed.

(** Two positive numbers with the same numeral are equal. *)
Lemma Number_toString_inj (m n : Z) :
  0 < m -> 0 < n -> Number_toString m = Number_toString n -> m = n.
Proof.
  intros Hm Hn Heq. unfold Number_toString in Heq.
  destruct m as [|p|p], n as [|q|q]; try lia.
  rewrite !lit_ascii in Heq
    by (eapply Forall_impl; [apply digits_of_positive | simpl; lia]).
  assert (Hstr : NilZero.string_of_int (Z.to_int (Z.pos p))
                 = NilZero.string_of_int (Z.to_int (Z.pos q))).
  { rewrite <- (string_of_list_ascii_of_string (NilZero.string_of_int _)).
    rewrite <- (string_of_list_ascii_of_string
                  (NilZero.string_of_int (Z.to_int (Z.pos q)))).
    f_equal. revert Heq. generalize (list_ascii_of_string
      (NilZero.string_of_int (Z.to_int (Z.pos p)))).
    generalize (list_ascii_of_string
      (NilZero.string_of_int (Z.to_int (Z.pos q)))).
    intros l2 l1. revert l2.
    induction l1 as [|a l1 IH]; intros [|b l2] Heq; try discriminate;
      [reflexivity|].
    cbn [map] in Heq.
    assert (Ha : N_of_ascii a = N_of_ascii b) by congruence.
    assert (Hl : map N_of_ascii l1 = map N_of_ascii l2) by congruence.
    rewrite <- (ascii_N_embedding a), <- (ascii_N_embedding b), Ha.
    f_equal. by apply IH. }
  apply (f_equal NilZero.int_of_string) in Hstr.
  rewrite !NilZero.isi in Hstr by apply to_int_not_nil.
  assert (Hint : Z.to_int (Z.pos p) = Z.to_int (Z.pos q)) by congruence.
  apply (f_equal Z.of_int) in Hint.
  by rewrite !Stdlib.Numbers.DecimalZ.of_to in Hint.
Qed.

Lemma split_at_dash (a b x y : jsstring) :
  Forall (fun c => c <> 45%N) a -> Forall (fun c => c <> 45%N) b ->
  a ++ 45%N :: x = b ++ 45%N :: y -> a = b /\ x = y.
Proof.
  intros Ha. revert b. induction Ha as [|c a Hc _ IH]; intros b Hb Heq.
  - destruct Hb as [|d b Hd _]; simpl in Heq.
    + split; congruence.
    + congruence.
  - destruct Hb as [|d b Hd Hb]; simpl in Heq.
    + congruence.
    + injection Heq as -> Heq. destruct (IH b Hb Heq) as [-> ->]. done.
Qed.

(** C3, amended: the key is the sequence number, a dash and the time
    of the violation, and nothing else. Two violations with the same
    number and time have the same key, whatever their place, description
    and other fields. The key is the decimal numeral of the number, a
    dash and the time (the empty string for an absent time); for the
    number 0 and for an absent number it is the dash and the time. For
    violations numbered from 1, as the parser numbers them, two keys
    are equal only when the numbers are equal and the times are equal:
    a different sequence number, or a different time, gives a different
    key. *)
Theorem C3_key_is_number_and_time (v1 v2 : Violation.t) :
  (Violation.violationNumber v1 = Violation.violationNumber v2 ->
   Violation.violationTime v1 = Violation.violationTime v2 ->
   CronJobExecutionService.getViolationKey v1
   = CronJobExecutionService.getViolationKey v2)
  /\ (forall n : Z,
        Violation.violationNumber v1 = Some n -> n <> 0 ->
        CronJobExecutionService.getViolationKey v1
        = Number_toString n ++ lit "-"
          ++ opt_or (Violation.violationTime v1) [])
  /\ (Violation.violationNumber v1 = None
      \/ Violation.violationNumber v1 = Some 0 ->
      CronJobExecutionService.getViolationKey v1
      = lit "-" ++ opt_or (Violation.violationTime v1) [])
  /\ (forall n1 n2 : Z,
        Violation.violationNumber v1 = Some n1 ->
        Violation.violationNumber v2 = Some n2 ->
        0 < n1 -> 0 < n2 ->
        (CronJobExecutionService.getViolationKey v1
         = CronJobExecutionService.getViolationKey v2
         <-> n1 = n2
             /\ opt_or (Violation.violationTime v1) []
                = opt_or (Violation.violationTime v2) [])).
Proof.
  unfold CronJobExecutionService.getViolationKey. split; [|split; [|split]].
  - intros Hnumber Htime. by rewrite Hnumber, Htime.
  - intros n Hn Hpos. rewrite Hn.
    by replace (n =? 0) with false by (symmetry; by apply Z.eqb_neq).
  - by intros [-> | ->].
  - intros n1 n2 H1 H2 Hn1 Hn2. rewrite H1, H2.
    replace (n1 =? 0) with false by (symmetry; apply Z.eqb_neq; lia).
    replace (n2 =? 0) with false by (symmetry; apply Z.eqb_neq; lia).
    change (lit "-") with [45%N]. cbn [app].
    split.
    + intros Heq. apply split_at_dash in Heq as [Hnum Htime].
      * split; [by apply Number_toString_inj | exact Htime].
      * eapply Forall_impl; [apply Number_toString_digits, Hn1 | simpl; lia].
      * eapply Forall_impl; [apply Number_toString_digits, Hn2 | simpl; lia].
    + intros [-> ->]. reflexivity.
Qed.

(** For C3: two violations at different places with the same number
    and time have one key, "1-08:15, 02/03/2025"; the same violation
    read as number 2 has another key; and so has a violation with the
    same number at another time. *)
Lemma C3_key_is_number_and_time_witness :
  let here := Scenario.violation_at 1 (lit "08:15, 02/03/2025") [] in
  let there :=
    Violation.mk (Some (lit "30A-123.45")) (Some 1) None None
      (Some (lit "08:15, 02/03/2025")) (Some (lit "Cau Giay - Ha Noi"))
      (Some (lit "Chay qua toc do quy dinh")) None None None None None None
      None None in
  let renumbered := Scenario.violation_at 2 (lit "08:15, 02/03/2025") [] in
  let later := Scenario.violation_at 1 (lit "17:40, 02/03/2025") [] in
  Violation.location here <> Violation.location there
  /\ CronJobExecutionService.getViolationKey here
     = CronJobExecutionService.getViolationKey there
  /\ CronJobExecutionService.getViolationKey here = lit "1-08:15, 02/03/2025"
  /\ CronJobExecutionService.getViolationKey here
     <> CronJobExecutionService.getViolationKey renumbered
  /\ CronJobExecutionService.getViolationKey here
     <> CronJobExecutionService.getViolationKey later.
Proof.
  cbv zeta. split; [vm_compute; discriminate|].
  split.
  { refine (proj1 (C3_key_is_number_and_time
                     (Scenario.violation_at 1 (lit "08:15, 02/03/2025") [])
                     _) _ _); vm_compute; reflexivity. }
  split.
  { destruct (C3_key_is_number_and_time
                (Scenario.violation_at 1 (lit "08:15, 02/03/2025") [])
                (Scenario.violation_at 1 (lit "08:15, 02/03/2025") []))
      as (_ & Hformat & _).
    rewrite (Hformat 1 eq_refl ltac:(lia)). vm_compute. reflexivity. }
  split.
  - intros Heq.
    destruct (C3_key_is_number_and_time
                (Scenario.violation_at 1 (lit "08:15, 02/03/2025") [])
                (Scenario.violation_at 2 (lit "08:15, 02/03/2025") []))
      as (_ & _ & _ & Hiff).
    apply (Hiff 1 2 eq_refl eq_refl ltac:(lia) ltac:(lia)) in Heq.
    destruct Heq as [Heq _]. discriminate.
  - intros Heq.
    destruct (C3_key_is_number_and_time
                (Scenario.violation_at 1 (lit "08:15, 02/03/2025") [])
                (Scenario.violation_at 1 (lit "17:40, 02/03/2025") []))
      as (_ & _ & _ & Hiff).
    apply (Hiff 1 1 eq_refl eq_refl ltac:(lia) ltac:(lia)) in Heq.
    destruct Heq as [_ Heq]. vm_compute in Heq. discriminate.
Defined.

Lemma new_Map_from (entries : list (jsstring * Violation.t))
    (m : gmap jsstring Violation.t) (key : jsstring) :
  is_Some (fold_left (fun m kv => <[kv.1 := kv.2]> m) entries m !! key)
  <-> is_Some (m !! key) \/ key ∈ entries.*1.
Proof.
  revert m. induction entries as [|[k v] entries IH]; intros m; simpl.
  - split; [auto | intros [Hm|Hin]; [done | by apply elem_of_nil in Hin]].
  - rewrite IH, elem_of_cons. destruct (decide (k = key)) as [->|Hne].
    + rewrite lookup_insert_eq. split; [intros _; right; by left | eauto].
    + rewrite lookup_insert_ne by done.
      split; [intros [?|?]; auto | intros [?|[?|?]]; auto; congruence].
Qed.

(** A map built from the violations of a list has a key exactly when
    some violation of the list has it. *)
Lemma Map_has_key (l : list Violation.t) (key : jsstring) :
  CronJobExecutionService.Map_has
    (CronJobExecutionService.new_Map
       (map (fun v => (CronJobExecutionService.getViolationKey v, v)) l)) key
  = bool_decide (key ∈ CronJobExecutionService.getViolationKey <$> l).
Proof.
  unfold CronJobExecutionService.Map_has, CronJobExecutionService.new_Map.
  apply eq_true_iff_eq. rewrite bool_decide_eq_true.
  transitivity (is_Some
    (fold_left (fun m kv => <[kv.1 := kv.2]> m)
       (map (fun v => (CronJobExecutionService.getViolationKey v, v)) l)
       (∅ : gmap jsstring Violation.t) !! key)).
  - unfold present. split.
    + destruct (_ !! key); [eauto | discriminate].
    + intros [x ->]. reflexivity.
  - rewrite new_Map_from, lookup_empty.
    replace ((map (fun v => (CronJobExecutionService.getViolationKey v, v)) l).*1)
      with (CronJobExecutionService.getViolationKey <$> l).
    + split; [intros [[? [=]]|]; done | auto].
    + induction l; simpl; [done | by f_equal].
Qed.

Lemma filter_as_decide {A} (f : A -> bool) (P : A -> Prop)
    `{forall x, Decision (P x)} (l : list A) :
  (forall x, f x = true <-> P x) -> List.filter f l = filter P l.
Proof.
  intros Hf. induction l as [|x l IH]; [reflexivity|].
  simpl. rewrite filter_cons, IH.
  destruct (decide (P x)) as [HP|HP].
  - apply Hf in HP. by rewrite HP.
  - destruct (f x) eqn:Hfx; [|done]. apply Hf in Hfx. done.
Qed.

(** C4: the violations reported as new are those of the current list
    whose key no previous violation has, the violations reported as
    removed are those of the previous list whose key no current
    violation has, and [hasChanges] holds exactly when one of the two
    lists is not empty. *)
Theorem C4_diff_is_set_difference (previous current : list Violation.t) :
  let comparison := CronJobExecutionService.compareViolations previous current in
  Comparison.newViolations comparison
  = filter (fun v => CronJobExecutionService.getViolationKey v
                     ∉ CronJobExecutionService.getViolationKey <$> previous)
      current
  /\ Comparison.removedViolations comparison
     = filter (fun v => CronJobExecutionService.getViolationKey v
                        ∉ CronJobExecutionService.getViolationKey <$> current)
         previous
  /\ (Comparison.hasChanges comparison = true
      <-> Comparison.newViolations comparison <> []
          \/ Comparison.removedViolations comparison <> []).
Proof.
  cbv zeta. unfold CronJobExecutionService.compareViolations.
  cbn [Comparison.newViolations Comparison.removedViolations Comparison.hasChanges].
  split; [|split].
  - apply filter_as_decide. intros v.
    rewrite Map_has_key, negb_true_iff, bool_decide_eq_false. done.
  - apply filter_as_decide. intros v.
    rewrite Map_has_key, negb_true_iff, bool_decide_eq_false. done.
  - rewrite orb_true_iff, !Z.ltb_lt.
    split; intros [Hn|Hr].
    + left. intros Heq. rewrite Heq in Hn. simpl in Hn. lia.
    + right. intros Heq. rewrite Heq in Hr. simpl in Hr. lia.
    + left. destruct (List.filter _ current); [done | simpl; lia].
    + right. destruct (List.filter _ previous); [done | simpl; lia].
Qed.

Lemma no_row_no_history (lookupHistory : list LookupHistory.t) (cronJobId : Z) :
  Forall (fun row => LookupHistory.cronJobId row <> cronJobId) lookupHistory ->
  DatabaseResult.success (Database.getLatestLookupHistory lookupHistory cronJobId)
  = false.
Proof.
  intros Hnone. unfold Database.getLatestLookupHistory.
  replace (List.filter _ lookupHistory) with (@nil LookupHistory.t); [reflexivity|].
  induction Hnone as [|row rows Hrow _ IH]; [reflexivity|].
  simpl. apply Z.eqb_neq in Hrow. by rewrite Hrow.
Qed.

(** C5: when the history holds no row for the job, the comparison of a
    lookup result reports all of its violations as new, in their order,
    and none as removed (and reports a change), for any list of current
    violations, empty or not. *)
Theorem C5_first_run_all_new
    (JSON_parse : jsstring -> option (list Violation.t))
    (lookupHistory : list LookupHistory.t) (cronJobId : Z)
    (currentResult : LookupResult.t) (data : LookupData.t)
    (current : list Violation.t) :
  Forall (fun row => LookupHistory.cronJobId row <> cronJobId) lookupHistory ->
  LookupResult.data currentResult = Some data ->
  LookupData.violations data = Some current ->
  let comparison :=
    CronJobExecutionService.compareWithPreviousLookup JSON_parse lookupHistory
      cronJobId currentResult in
  CronJobComparisonResult.newViolations comparison = current
  /\ CronJobComparisonResult.removedViolations comparison = []
  /\ CronJobComparisonResult.hasChanges comparison = true.
Proof.
  intros Hnone Hdata Hcurrent. cbv zeta.
  unfold CronJobExecutionService.compareWithPreviousLookup.
  rewrite (no_row_no_history _ _ Hnone). cbn [negb].
  unfold CronJobExecutionService.all_new, CronJobExecutionService.violations_of.
  rewrite Hdata, Hcurrent. by repeat split.
Qed.

(** A job whose history holds rows of another job only, for C5. *)
Lemma C5_first_run_all_new_witness :
  let comparison :=
    CronJobExecutionService.compareWithPreviousLookup (fun _ => Some [])
      Scenario.history_of_job_7 8
      (LookupResult.mk ok None (Some Scenario.found_one_data)) in
  Forall (fun row => LookupHistory.cronJobId row <> 8) Scenario.history_of_job_7
  /\ CronJobComparisonResult.newViolations comparison = Scenario.found_one
  /\ CronJobComparisonResult.removedViolations comparison = [].
Proof.
  cbv zeta.
  assert (Hnone : Forall (fun row => LookupHistory.cronJobId row <> 8)
                    Scenario.history_of_job_7)
    by (repeat constructor; simpl; lia).
  split; [exact Hnone|].
  destruct (C5_first_run_all_new (fun _ => Some []) Scenario.history_of_job_7 8
              (LookupResult.mk ok None (Some Scenario.found_one_data))
              Scenario.found_one_data Scenario.found_one
              Hnone eq_refl eq_refl)
    as (Hnew & Hremoved & _).
  split; [exact Hnew | exact Hremoved].
Defined.

(** ** The trace of the repository *)

Create HintDb grows.

Lemma grows_ret {E A} (a : A) : Observe.grows (mret a : M (Repo E) A).
Proof. intros st. reflexivity. Qed.

Lemma grows_throw {E A} (e : JsError.t) : Observe.grows (mthrow e : M (Repo E) A).
Proof. intros st. reflexivity. Qed.

Lemma grows_bind {E A B} (m : M (Repo E) A) (k : A -> M (Repo E) B) :
  Observe.grows m -> (forall a, Observe.grows (k a)) -> Observe.grows (m ≫= k).
Proof.
  intros Hm Hk st. unfold mbind, M_bind.
  specialize (Hm st). destruct (m st) as [[e|a] st1]; [exact Hm|].
  etrans; [exact Hm | apply Hk].
Qed.

Lemma grows_try_catch {E A} (m : M (Repo E) A) (handler : JsError.t -> M (Repo E) A) :
  Observe.grows m -> (forall e, Observe.grows (handler e)) ->
  Observe.grows (try_catch m handler).
Proof.
  intros Hm Hh st. unfold try_catch.
  specialize (Hm st). destruct (m st) as [[e|a] st1]; [|exact Hm].
  etrans; [exact Hm | apply Hh].
Qed.

(** A request adds itself to the trace, with the cookies the jar held. *)
Lemma request_trace (E : Env) (m : Http.Method) (u : jsstring)
    (f : list (jsstring * jsstring)) (st : Repo E) :
  trace (request E m u f st).2
  = trace st ++ [ev_request (Http.Build_Request m u (jar st) f)].
Proof.
  unfold request. destruct (http E _ (world st)) as [[r|c msg] w]; [|reflexivity].
  by destruct (_ && _).
Qed.

Lemma grows_request (E : Env) m u f : Observe.grows (request E m u f).
Proof. intros st. rewrite request_trace. by eexists. Qed.

Lemma grows_solveCaptcha_util (E : Env) image contentType method :
  Observe.grows (solveCaptcha_util E image contentType method).
Proof.
  intros st. unfold solveCaptcha_util.
  destruct (default _ method).
  - unfold solveWithTesseract. destruct (recognize E image (world st)).
    by eexists.
  - unfold solveWithAutocaptcha. destruct (is_empty _); [reflexivity|].
    destruct (autocaptcha_post E image contentType (world st)). by eexists.
Qed.

Lemma grows_classify (E : Env) {A} (e : JsError.t) :
  Observe.grows (ViolationRepository.classify E e : M (Repo E) A).
Proof.
  unfold ViolationRepository.classify.
  repeat (case_match; try apply grows_throw).
Qed.

#[local] Hint Resolve grows_ret grows_throw grows_request grows_classify
  grows_solveCaptcha_util : grows.

Lemma grows_lookupViolations (E : Env) plate vehicleType options force :
  Observe.grows (ViolationRepository.lookupViolations E plate vehicleType options force).
Proof.
  unfold ViolationRepository.lookupViolations, ViolationRepository.initSession,
    ViolationRepository.fetchCaptchaImage, ViolationRepository.solveCaptcha,
    ViolationRepository.validateCaptchaAjax, ViolationRepository.fetchLookupResult.
  repeat first
    [ apply grows_try_catch | apply grows_bind
    | match goal with |- forall _, _ => intro end
    | solve [auto with grows]
    | match goal with |- Observe.grows (if ?b then _ else _) => destruct b end ].
Qed.

Lemma starts_bind {E A B} (m : M (Repo E) A) (k : A -> M (Repo E) B)
    (first : Repo E -> Event) :
  (forall st, exists rest, trace (m st).2 = trace st ++ first st :: rest) ->
  (forall a, Observe.grows (k a)) ->
  forall st, exists rest, trace ((m ≫= k) st).2 = trace st ++ first st :: rest.
Proof.
  intros Hm Hk st. unfold mbind, M_bind.
  destruct (Hm st) as [rest Hrest]. destruct (m st) as [[e|a] st1].
  - by exists rest.
  - destruct (Hk a st1) as [more Hmore]. exists (rest ++ more).
    simpl in Hrest. by rewrite Hmore, Hrest, <- app_assoc.
Qed.

Lemma starts_try_catch {E A} (m : M (Repo E) A)
    (handler : JsError.t -> M (Repo E) A) (first : Repo E -> Event) :
  (forall st, exists rest, trace (m st).2 = trace st ++ first st :: rest) ->
  (forall e, Observe.grows (handler e)) ->
  forall st, exists rest,
    trace (try_catch m handler st).2 = trace st ++ first st :: rest.
Proof.
  intros Hm Hh st. unfold try_catch.
  destruct (Hm st) as [rest Hrest]. destruct (m st) as [[e|a] st1].
  - destruct (Hh e st1) as [more Hmore]. exists (rest ++ more).
    simpl in Hrest. by rewrite Hmore, Hrest, <- app_assoc.
  - by exists rest.
Qed.

(** Every attempt starts with the request of [initSession], sent with
    the cookies the jar holds at that moment. *)
Lemma lookupViolations_first_request (E : Env) plate vehicleType options force
    (st : Repo E) :
  exists rest,
    trace (ViolationRepository.lookupViolations E plate vehicleType options force st).2
    = trace st
      ++ ev_request (Http.Build_Request Http.GET Config.baseUrl (jar st) []) :: rest.
Proof.
  revert st. unfold ViolationRepository.lookupViolations.
  apply (starts_try_catch _ _
           (fun st => ev_request
                        (Http.Build_Request Http.GET Config.baseUrl (jar st) [])));
    [|intros; apply grows_throw].
  apply starts_bind.
  - unfold ViolationRepository.initSession. apply starts_bind.
    + intros st. exists []. apply request_trace.
    + intros; apply grows_ret.
  - intros _.
    unfold ViolationRepository.fetchCaptchaImage, ViolationRepository.solveCaptcha,
      ViolationRepository.validateCaptchaAjax, ViolationRepository.fetchLookupResult.
    repeat first
      [ apply grows_try_catch | apply grows_bind
      | match goal with |- forall _, _ => intro end
      | solve [auto with grows]
      | match goal with |- Observe.grows (if ?b then _ else _) => destruct b end ].
Qed.

(** ** The cookie jar of the repository *)

Lemma store_app (jar : gmap jsstring jsstring) (a b : list (jsstring * jsstring)) :
  Http.store jar (a ++ b) = Http.store (Http.store jar a) b.
Proof. apply fold_left_app. Qed.

(** Storing cookies takes no cookie out of the jar. *)
Lemma store_keeps (jar : gmap jsstring jsstring)
    (cs : list (jsstring * jsstring)) (name : jsstring) :
  is_Some (jar !! name) -> is_Some (Http.store jar cs !! name).
Proof.
  revert jar. induction cs as [|c cs IH]; intros jar Hjar; [exact Hjar|].
  simpl. apply IH. apply lookup_insert_is_Some.
  destruct (decide (c.1 = name)); [by left | by right].
Qed.

Lemma world_after_app {E : Env} (w : World E) (a b : list Event) :
  Observe.world_after w (a ++ b)
  = Observe.world_after (Observe.world_after w a) b.
Proof.
  revert w. induction a as [|[r|image|image contentType] a IH]; intros w;
    simpl; [reflexivity | apply IH ..].
Qed.

Lemma cookies_received_app {E : Env} (w : World E) (a b : list Event) :
  Observe.cookies_received w (a ++ b)
  = Observe.cookies_received w a
    ++ Observe.cookies_received (Observe.world_after w a) b.
Proof.
  revert w. induction a as [|[r|image|image contentType] a IH]; intros w;
    simpl; [reflexivity | | apply IH ..].
  by rewrite IH, app_assoc.
Qed.

Lemma follows_refl {E : Env} (st : Repo E) : Observe.follows st st.
Proof. exists []. by rewrite app_nil_r. Qed.

Lemma follows_trans {E : Env} (st1 st2 st3 : Repo E) :
  Observe.follows st1 st2 -> Observe.follows st2 st3 -> Observe.follows st1 st3.
Proof.
  intros (new1 & Htrace1 & Hworld1 & Hjar1) (new2 & Htrace2 & Hworld2 & Hjar2).
  exists (new1 ++ new2).
  rewrite Htrace2, Htrace1, Hworld2, Hjar2, Hjar1, Hworld1.
  by rewrite app_assoc, world_after_app, cookies_received_app, store_app.
Qed.

Create HintDb jar.

Lemma accumulates_ret {E A} (a : A) : Observe.accumulates (mret a : M (Repo E) A).
Proof. intros st. apply follows_refl. Qed.

Lemma accumulates_throw {E A} (e : JsError.t) :
  Observe.accumulates (mthrow e : M (Repo E) A).
Proof. intros st. apply follows_refl. Qed.

Lemma accumulates_bind {E A B} (m : M (Repo E) A) (k : A -> M (Repo E) B) :
  Observe.accumulates m -> (forall a, Observe.accumulates (k a)) ->
  Observe.accumulates (m ≫= k).
Proof.
  intros Hm Hk st. unfold mbind, M_bind.
  specialize (Hm st). destruct (m st) as [[e|a] st1]; [exact Hm|].
  eapply follows_trans; [exact Hm | apply Hk].
Qed.

Lemma accumulates_try_catch {E A} (m : M (Repo E) A)
    (handler : JsError.t -> M (Repo E) A) :
  Observe.accumulates m -> (forall e, Observe.accumulates (handler e)) ->
  Observe.accumulates (try_catch m handler).
Proof.
  intros Hm Hh st. unfold try_catch.
  specialize (Hm st). destruct (m st) as [[e|a] st1]; [|exact Hm].
  eapply follows_trans; [exact Hm | apply Hh].
Qed.

(** A request stores the cookies of its reply, whatever the status of
    the reply, and takes nothing out of the jar. *)
Lemma accumulates_request (E : Env) m u f : Observe.accumulates (request E m u f).
Proof.
  intros st. exists [ev_request (Http.Build_Request m u (jar st) f)].
  unfold request. simpl.
  destruct (http E _ (world st)) as [[r|c msg] w]; simpl.
  - rewrite app_nil_r. by destruct (_ && _).
  - done.
Qed.

Lemma accumulates_solveCaptcha_util (E : Env) image contentType method :
  Observe.accumulates (solveCaptcha_util E image contentType method).
Proof.
  intros st. unfold solveCaptcha_util.
  destruct (default _ method).
  - unfold solveWithTesseract. exists [ev_recognize image]. simpl.
    by destruct (recognize E image (world st)).
  - unfold solveWithAutocaptcha. destruct (is_empty _); [apply follows_refl|].
    exists [ev_autocaptcha image contentType]. simpl.
    by destruct (autocaptcha_post E image contentType (world st)).
Qed.

Lemma accumulates_classify (E : Env) {A} (e : JsError.t) :
  Observe.accumulates (ViolationRepository.classify E e : M (Repo E) A).
Proof.
  unfold ViolationRepository.classify.
  repeat (case_match; try apply accumulates_throw).
Qed.

#[local] Hint Resolve accumulates_ret accumulates_throw accumulates_request
  accumulates_classify accumulates_solveCaptcha_util : jar.

(** One attempt of the pipeline stores what it receives and takes
    nothing out of the jar. *)
Lemma accumulates_lookupViolations (E : Env) plate vehicleType options force :
  Observe.accumulates
    (ViolationRepository.lookupViolations E plate vehicleType options force).
Proof.
  unfold ViolationRepository.lookupViolations, ViolationRepository.initSession,
    ViolationRepository.fetchCaptchaImage, ViolationRepository.solveCaptcha,
    ViolationRepository.validateCaptchaAjax, ViolationRepository.fetchLookupResult.
  repeat first
    [ apply accumulates_try_catch | apply accumulates_bind
    | match goal with |- forall _, _ => intro end
    | solve [auto with jar]
    | match goal with
      | |- Observe.accumulates (if ?b then _ else _) => destruct b
      end ].
Qed.

(** So does the retry loop, over all its attempts. *)
Lemma retry_loop_follows (E : Env) (remaining : nat) :
  forall plate vehicleType maxRetries attempt options lastError total
         (sv : Service (Repo E)),
    Observe.follows (violationRepository sv)
      (violationRepository
         (ViolationService.retry_loop remaining plate vehicleType
            maxRetries attempt options lastError total sv).2).
Proof.
  induction remaining as [|remaining IH]; intros; [apply follows_refl|].
  cbn [ViolationService.retry_loop]. unfold ViolationService.call_repository.
  pose proof (accumulates_lookupViolations E plate vehicleType options
                (1 <? attempt) (violationRepository sv)) as Hcall.
  cbn [lookupViolations ViolationRepository_Repository].
  destruct (ViolationRepository.lookupViolations E _ _ _ _ _) as [[err|result] repo];
    [|exact Hcall].
  destruct (_ || _); [exact Hcall|].
  destruct (ViolationService.clears_captcha _);
    (eapply follows_trans; [exact Hcall | apply IH]).
Qed.

(** And so does a lookup through the service, whatever its arguments. *)
Lemma lookupByPlate_follows (E : Env) plate vehicleType options
    (sv : Service (Repo E)) :
  Observe.follows (violationRepository sv)
    (violationRepository (App.lookupByPlate E plate vehicleType options sv).2).
Proof.
  unfold App.lookupByPlate, ViolationService.lookupByPlate.
  destruct (_ || _); [apply follows_refl|].
  destruct (negb _); [apply follows_refl|].
  unfold ViolationService.lookupWithRetry.
  match goal with
  | |- context [ViolationService.retry_loop ?n ?p ?v ?m ?a ?o ?l ?t sv] =>
      pose proof (retry_loop_follows E n p v m a o l t sv) as Hloop;
      destruct (ViolationService.retry_loop n p v m a o l t sv) as [result sv']
  end.
  destruct (LookupResult.status result), (LookupResult.data result); exact Hloop.
Qed.

Lemma after_lookups_follows (E : Env)
    (calls : list (jsstring * jsstring * LookupOptions.t))
    (sv : Service (Repo E)) :
  Observe.follows (violationRepository sv)
    (violationRepository (Observe.after_lookups E calls sv)).
Proof.
  revert sv. induction calls as [|call calls IH]; intros sv;
    [apply follows_refl|].
  unfold Observe.after_lookups. cbn [fold_left].
  eapply follows_trans; [apply lookupByPlate_follows | apply IH].
Qed.

(** ** Lookup pipeline and retry orchestrator *)

Lemma retry_loop_trace (E : Env) (remaining : nat) :
  forall plate vehicleType maxRetries attempt options lastError total
         (sv : Service (Repo E)),
    trace (violationRepository sv)
    `prefix_of` trace (violationRepository
                         (ViolationService.retry_loop remaining plate vehicleType
                            maxRetries attempt options lastError total sv).2).
Proof.
  induction remaining as [|remaining IH]; intros; [reflexivity|].
  cbn [ViolationService.retry_loop]. unfold ViolationService.call_repository.
  pose proof (grows_lookupViolations E plate vehicleType options (1 <? attempt)
                (violationRepository sv)) as Hcall.
  cbn [lookupViolations ViolationRepository_Repository].
  destruct (ViolationRepository.lookupViolations E _ _ _ _ _) as [[err|result] repo];
    [|exact Hcall].
  destruct (_ || _); [exact Hcall|].
  destruct (ViolationService.clears_captcha _);
    (etrans; [exact Hcall | apply IH]).
Qed.

(** A retry loop with an iteration left starts with the request of
    [initSession], sent with the cookies the jar holds when the loop is
    entered. *)
Lemma retry_loop_first_request (E : Env) (remaining : nat)
    plate vehicleType maxRetries attempt options lastError total
    (sv : Service (Repo E)) :
  exists rest,
    trace (violationRepository
             (ViolationService.retry_loop (Datatypes.S remaining) plate vehicleType
                maxRetries attempt options lastError total sv).2)
    = trace (violationRepository sv)
      ++ ev_request (Http.Build_Request Http.GET Config.baseUrl
                       (jar (violationRepository sv)) []) :: rest.
Proof.
  cbn [ViolationService.retry_loop]. unfold ViolationService.call_repository.
  destruct (lookupViolations_first_request E plate vehicleType options
              (1 <? attempt) (violationRepository sv)) as [rest Hcall].
  cbn [lookupViolations ViolationRepository_Repository].
  destruct (ViolationRepository.lookupViolations E _ _ _ _ _) as [[err|result] repo];
    [|by exists rest].
  destruct (_ || _); [by exists rest|].
  destruct (ViolationService.clears_captcha _).
  - match goal with
    | |- context [ViolationService.retry_loop remaining ?p ?v ?m ?a ?o ?l ?t ?s] =>
        destruct (retry_loop_trace E remaining p v m a o l t s) as [more Hmore]
    end.
    exists (rest ++ more). simpl in Hcall, Hmore.
    by rewrite Hmore, Hcall, <- app_assoc.
  - match goal with
    | |- context [ViolationService.retry_loop remaining ?p ?v ?m ?a ?o ?l ?t ?s] =>
        destruct (retry_loop_trace E remaining p v m a o l t s) as [more Hmore]
    end.
    exists (rest ++ more). simpl in Hcall, Hmore.
    by rewrite Hmore, Hcall, <- app_assoc.
Qed.

(** C7: a vehicle type other than "1", "2" and "3" makes [lookupByPlate]
    throw at once, whatever the plate: the error is one of the two
    input errors, no request is sent, no attempt is made, and the
    service is left as it was. *)
Theorem C7_invalid_vehicle_type_rejected (E : Env)
    (plate vehicleType : jsstring) (options : LookupOptions.t)
    (sv : Service (Repo E)) :
  vehicleType ∉ [lit "1"; lit "2"; lit "3"] ->
  let run :=
    App.lookupByPlate E plate vehicleType options sv in
  (exists err,
      run.1 = inl err
      /\ (JsError.message err = lit "Plate and vehicleType are required"
          \/ JsError.message err
             = lit "Invalid vehicle type. Must be 1 (Car), 2 (Motorcycle), or 3 (Electric bicycle)"))
  /\ trace (violationRepository run.2) = trace (violationRepository sv)
  /\ journal run.2 = journal sv
  /\ run.2 = sv.
Proof.
  intros Hinvalid. cbv zeta.
  unfold App.lookupByPlate, ViolationService.lookupByPlate.
  destruct (is_empty plate || is_empty vehicleType).
  - split; [eexists; split; [reflexivity | by left] | done].
  - change ViolationService.validVehicleTypes with [lit "1"; lit "2"; lit "3"].
    rewrite bool_decide_eq_false_2 by exact Hinvalid. cbn [negb].
    split; [eexists; split; [reflexivity | by right] | done].
Qed.

(** The vehicle type "9" on a new service, for C7. *)
Lemma C7_invalid_vehicle_type_rejected_witness :
  let sv := App.new_ViolationService Scenario.session_site 0%nat in
  let run :=
    App.lookupByPlate Scenario.session_site
      (lit "51K-67179") (lit "9") Scenario.no_options sv in
  (lit "9" ∉ [lit "1"; lit "2"; lit "3"])
  /\ trace (violationRepository run.2) = []
  /\ journal run.2 = [].
Proof.
  cbv zeta.
  assert (Hinvalid : lit "9" ∉ [lit "1"; lit "2"; lit "3"])
    by (apply (bool_decide_eq_false_1 (lit "9" ∈ [lit "1"; lit "2"; lit "3"]));
        vm_compute; reflexivity).
  split; [exact Hinvalid|].
  destruct (C7_invalid_vehicle_type_rejected Scenario.session_site
              (lit "51K-67179") (lit "9") Scenario.no_options
              (App.new_ViolationService Scenario.session_site 0%nat)
              Hinvalid) as (_ & Htrace & Hjournal & _).
  split; [exact Htrace | exact Hjournal].
Defined.

Lemma ServerError_includes (status : Z) :
  includes (JsError.message (ViolationRepository.ServerError status))
    (lit "Server error") = true.
Proof.
  unfold ViolationRepository.ServerError, Error. cbn [JsError.message].
  replace (lit " - Server error. Please try again later.")
    with (lit " - " ++ lit "Server error" ++ lit ". Please try again later.")
    by (vm_compute; reflexivity).
  rewrite app_assoc. apply includes_app.
Qed.

Lemma ServerError_retryable (status : Z) :
  ViolationService.isRetryableError (ViolationRepository.ServerError status) = true.
Proof.
  unfold ViolationService.isRetryableError.
  rewrite ServerError_includes. by rewrite !orb_true_r.
Qed.

Lemma ServerError_clears (status : Z) :
  ViolationService.clears_captcha
    (JsError.message (ViolationRepository.ServerError status)) = true.
Proof.
  unfold ViolationService.clears_captcha.
  rewrite ServerError_includes. by rewrite !orb_true_r.
Qed.

Lemma ServerError_message_not_empty (status : Z) :
  is_empty (JsError.message (ViolationRepository.ServerError status)) = false.
Proof. by apply app_not_empty. Qed.

(** One iteration of the loop. *)
Lemma retry_loop_step {S : Type} `{Repository S} (remaining : nat)
    plate vehicleType maxRetries attempt options lastError total (sv : Service S) :
  ViolationService.retry_loop (Datatypes.S remaining) plate vehicleType maxRetries
    attempt options lastError total sv
  = match ViolationService.call_repository plate vehicleType options attempt
            (1 <? attempt) sv with
    | (inr result, sv1) => (ViolationService.with_retry_count total result, sv1)
    | (inl err, sv1) =>
        if negb (ViolationService.isRetryableError err) || (maxRetries <? attempt)
        then (ViolationService.error_result plate vehicleType (Some err) total, sv1)
        else if ViolationService.clears_captcha (JsError.message err) then
          ViolationService.retry_loop remaining plate vehicleType maxRetries
            (attempt + 1)
            (LookupOptions.mk None (LookupOptions.saveCaptcha options))
            (Some err) (total + 1)
            (ViolationService.sleep (attempt * 2000) sv1)
        else
          ViolationService.retry_loop remaining plate vehicleType maxRetries
            (attempt + 1) options (Some err) total
            (ViolationService.sleep (attempt * 2000) sv1)
    end.
Proof. reflexivity. Qed.

Section RetryExhaustion.
Context {S : Type} `{Repository S}.
Hypothesis always_fails :
  forall p v o f s, exists status,
    (lookupViolations p v o f s).1 = inl (ViolationRepository.ServerError status).

(** When every call of the repository throws a server error, a loop
    with [n + 1] iterations left, the last of them numbered
    [maxRetries + 1], makes them all, waits [attempt * 2000] after each
    but the last, counts a refresh for each wait, and returns the error
    of the last call. *)
Lemma retry_loop_exhausts (n : nat) :
  forall plate vehicleType maxRetries attempt options lastError total
         (sv : Service S),
    attempt + Z.of_nat n = maxRetries + 1 ->
    let run :=
      ViolationService.retry_loop (Datatypes.S n) plate vehicleType maxRetries
        attempt options lastError total sv in
    exists steps e,
      journal run.2 = journal sv ++ steps
      /\ Observe.attempt_numbers steps = seqZ attempt (Z.of_nat (Datatypes.S n))
      /\ Observe.forced_refreshes steps
         = length (List.filter (Z.ltb 1) (seqZ attempt (Z.of_nat (Datatypes.S n))))
      /\ Observe.waits steps
         = map (fun a => a * 2000) (seqZ attempt (Z.of_nat n))
      /\ last (Observe.outcomes steps) = Some (inl e)
      /\ (exists status, e = ViolationRepository.ServerError status)
      /\ run.1 = ViolationService.error_result plate vehicleType (Some e)
                   (total + Z.of_nat n).
Proof.
  induction n as [|n IH]; intros plate vehicleType maxRetries attempt options
    lastError total sv Hlast; cbv zeta.
  - cbn [ViolationService.retry_loop]. unfold ViolationService.call_repository.
    destruct (always_fails plate vehicleType options (1 <? attempt)
                (violationRepository sv)) as (status & Hcall).
    destruct (lookupViolations _ _ _ _ _) as [r repo]. simpl in Hcall. subst r.
    rewrite ServerError_retryable. cbn [negb orb].
    replace (maxRetries <? attempt) with true by (symmetry; apply Z.ltb_lt; lia).
    eexists [_], _. cbn [snd fst journal].
    repeat split; try reflexivity.
    + unfold Observe.forced_refreshes.
      change (seqZ attempt (Z.of_nat 1)) with [attempt]. cbn [List.filter].
      by destruct (1 <? attempt).
    + by exists status.
    + by rewrite Z.add_0_r.
  - rewrite retry_loop_step. unfold ViolationService.call_repository.
    destruct (always_fails plate vehicleType options (1 <? attempt)
                (violationRepository sv)) as (status & Hcall).
    destruct (lookupViolations _ _ _ _ _) as [r repo]. simpl in Hcall. subst r.
    rewrite ServerError_retryable. cbn [negb orb].
    replace (maxRetries <? attempt) with false by (symmetry; apply Z.ltb_ge; lia).
    rewrite ServerError_clears.
    match goal with
    | |- context [ViolationService.retry_loop _ ?p ?v ?m ?a ?o ?l ?t ?s] =>
        destruct (IH p v m a o l t s) as
          (steps & e & Hjournal & Hnumbers & Hforced & Hwaits & Hlast' & He & Hrun);
        [lia|]
    end.
    exists (attempted attempt (1 <? attempt) (LookupOptions.captchaText options)
              (inl (ViolationRepository.ServerError status))
            :: slept (attempt * 2000) :: steps), e.
    rewrite Hjournal, Hrun. unfold ViolationService.sleep. cbn [journal].
    split; [by rewrite <- !app_assoc|].
    split.
    { change (Observe.attempt_numbers (_ :: _ :: steps))
        with (attempt :: Observe.attempt_numbers steps).
      rewrite Hnumbers. rewrite (seqZ_cons attempt) by lia. do 2 f_equal; lia. }
    split.
    { unfold Observe.forced_refreshes in *. cbn [List.filter].
      rewrite (seqZ_cons attempt (Z.of_nat (Datatypes.S (Datatypes.S n)))) by lia.
      cbn [List.filter].
      replace (Z.pred (Z.of_nat (Datatypes.S (Datatypes.S n))))
        with (Z.of_nat (Datatypes.S n)) by lia.
      replace (Z.succ attempt) with (attempt + 1) by lia.
      destruct (1 <? attempt); cbn [length]; by rewrite Hforced. }
    split.
    { change (Observe.waits (_ :: _ :: steps))
        with (attempt * 2000 :: Observe.waits steps).
      rewrite Hwaits. rewrite (seqZ_cons attempt (Z.of_nat (Datatypes.S n))) by lia.
      cbn [map]. do 3 f_equal; lia. }
    split.
    { change (Observe.outcomes (_ :: _ :: steps))
        with (inl (ViolationRepository.ServerError status)
              :: Observe.outcomes steps).
      by rewrite last_cons, Hlast'. }
    split; [exact He|].
    f_equal. lia.
Qed.
End RetryExhaustion.

(** C2: when every attempt fails with a server error, a lookup with
    [maxRetries = 5] makes the attempts 1 to 6 and no other, five of
    them with a forced refresh, and returns a result of status 'error'
    whose message is the message of the error of the last attempt and
    whose [totalRetryCaptcha] is 5. *)
Theorem C2_retry_exhaustion {S : Type} `{Repository S}
    (plate vehicleType : jsstring) (options : LookupOptions.t) (sv : Service S) :
  (forall p v o f s, exists status,
      500 <= status
      /\ (lookupViolations p v o f s).1
         = inl (ViolationRepository.ServerError status)) ->
  let run :=
    ViolationService.lookupWithRetry plate vehicleType options
      ViolationService.default_maxRetries sv in
  ViolationService.default_maxRetries = 5
  /\ exists steps lastError,
       journal run.2 = journal sv ++ steps
       /\ Observe.attempt_numbers steps = [1; 2; 3; 4; 5; 6]
       /\ Observe.forced_refreshes steps = 5%nat
       /\ Observe.waits steps = [2000; 4000; 6000; 8000; 10000]
       /\ last (Observe.outcomes steps) = Some (inl lastError)
       /\ LookupResult.status run.1 = error
       /\ LookupResult.message run.1 = Some (JsError.message lastError)
       /\ (LookupData.totalRetryCaptcha <$> LookupResult.data run.1)
          = Some (Some 5).
Proof.
  intros Hfails. cbv zeta. split; [reflexivity|].
  unfold ViolationService.lookupWithRetry, ViolationService.default_maxRetries.
  change (Z.to_nat (5 + 1)) with 6%nat.
  destruct (retry_loop_exhausts
              (fun p v o f s =>
                 match Hfails p v o f s with
                 | ex_intro _ status (conj _ Hcall) => ex_intro _ status Hcall
                 end)
              5 plate vehicleType 5 1 options None 0 sv eq_refl)
    as (steps & e & Hjournal & Hnumbers & Hforced & Hwaits & Hlast & [status ->] & Hrun).
  exists steps, (ViolationRepository.ServerError status).
  rewrite Hrun. unfold ViolationService.error_result.
  cbn [LookupResult.status LookupResult.message LookupResult.data fmap option_fmap
         option_map LookupData.totalRetryCaptcha opt_or].
  unfold or_else. rewrite ServerError_message_not_empty.
  repeat split; assumption || reflexivity.
Qed.

(** The stub whose calls always throw a server error, on a new service,
    for C2: the sixth call reports status 505. *)
Lemma C2_retry_exhaustion_witness :
  let run :=
    @ViolationService.lookupWithRetry nat Scenario.always_ServerError
      (lit "51K67179") (lit "1") Scenario.no_options
      ViolationService.default_maxRetries (ViolationService.new 0%nat) in
  (forall p v o f s, exists status,
      500 <= status
      /\ (@lookupViolations nat Scenario.always_ServerError p v o f s).1
         = inl (ViolationRepository.ServerError status))
  /\ Observe.attempt_numbers (journal run.2) = [1; 2; 3; 4; 5; 6]
  /\ LookupResult.message run.1
     = Some (lit "505 - Server error. Please try again later.").
Proof.
  cbv zeta.
  assert (Hfails : forall p v o f s, exists status,
             500 <= status
             /\ (@lookupViolations nat Scenario.always_ServerError p v o f s).1
                = inl (ViolationRepository.ServerError status)).
  { intros p v o f s. exists (500 + Z.of_nat s). split; [lia | reflexivity]. }
  split; [exact Hfails|].
  destruct (@C2_retry_exhaustion nat Scenario.always_ServerError
              (lit "51K67179") (lit "1") Scenario.no_options
              (ViolationService.new 0%nat) Hfails)
    as (_ & steps & e & Hjournal & Hnumbers & _).
  split.
  - rewrite Hjournal. exact Hnumbers.
  - vm_compute. reflexivity.
Defined.

(** C1, on the code: a caller gives the captcha "ABC123" and the site
    answers the first request of the first attempt with status 500. The
    error is retryable but is not one of those that clear the captcha
    text, so the second attempt, made with a forced refresh, fetches a
    new captcha image and then validates with "ABC123" all the same: no
    solver is called, the text is not replaced, and the count of
    regenerated captchas stays 0. *)
Theorem C1_manual_captcha_kept_on_retry :
  let run :=
    App.lookupByPlate Scenario.outage
      (lit "51K-67179 ") (lit "1") Scenario.manual
      (App.new_ViolationService Scenario.outage 0%nat) in
  let requests := Observe.requests (trace (violationRepository run.2)) in
  Observe.attempt_numbers (journal run.2) = [1; 2]
  /\ head (Observe.outcomes (journal run.2))
     = Some (inl (JsError.mk (lit "Request failed with status code 500")
                    (Some 500) (Some (lit "ERR_BAD_RESPONSE"))))
  /\ ViolationService.isRetryableError
       (JsError.mk (lit "Request failed with status code 500")
          (Some 500) (Some (lit "ERR_BAD_RESPONSE"))) = true
  /\ ViolationService.clears_captcha (lit "Request failed with status code 500")
     = false
  /\ Observe.forced_refreshes (journal run.2) = 1%nat
  /\ Observe.captchas_given (journal run.2)
     = [Some (lit "ABC123"); Some (lit "ABC123")]
  /\ map Observe.target requests
     = [ (Http.GET, Config.baseUrl);
         (Http.GET, Config.baseUrl);
         (Http.GET, Config.captchaEndpoint);
         (Http.POST, Config.ajaxValidateUrl);
         (Http.GET, lit "https://www.csgt.vn/tra-cuu-phuong-tien-vi-pham.html?&LoaiXe=1&BienKiemSoat=51K67179") ]
  /\ omap Observe.captcha_sent requests = [lit "ABC123"]
  /\ Observe.solver_calls (trace (violationRepository run.2)) = 0%nat
  /\ run.1
     = inr (LookupResult.mk ok None
              (Some (LookupData.mk (lit "51K67179") (lit "1")
                       (Some (lit "ABC123")) (Some []) (Some 0) (Some 0)
                       (Some 0) (Some (lit "2025-01-01T00:00:00.000Z"))
                       (Some (lit "csgt.vn")) (Some 0)))).
Proof.
  cbv zeta.
  repeat match goal with
         | |- _ /\ _ => split; [vm_compute; reflexivity|]
         end.
  vm_compute; reflexivity.
Qed.




(** ** Further properties of the retry loop *)

Section RetryShape.
Context {S : Type} `{Repository S}.

(** Whatever the repository does, a loop with [n + 1] iterations left,
    the last of them numbered [maxRetries + 1], makes between one and
    [n + 1] attempts, numbered from [attempt] on without a gap, each
    with [forceRefreshCaptcha] set exactly when its number is above 1,
    and waits [2000] times the attempt number after each attempt but
    the last. *)
Lemma retry_loop_shape (n : nat) :
  forall plate vehicleType maxRetries attempt options lastError total
         (sv : Service S),
    attempt + Z.of_nat n = maxRetries + 1 ->
    let run :=
      ViolationService.retry_loop (Datatypes.S n) plate vehicleType maxRetries
        attempt options lastError total sv in
    exists (made : nat) steps,
      (made <= n)%nat
      /\ journal run.2 = journal sv ++ steps
      /\ Observe.attempt_numbers steps
         = seqZ attempt (Z.of_nat (Datatypes.S made))
      /\ Observe.forced_flags steps
         = map (Z.ltb 1) (seqZ attempt (Z.of_nat (Datatypes.S made)))
      /\ Observe.waits steps
         = map (fun a => a * 2000) (seqZ attempt (Z.of_nat made)).
Proof.
  induction n as [|n IH]; intros plate vehicleType maxRetries attempt options
    lastError total sv Hlast; cbv zeta.
  - rewrite retry_loop_step. unfold ViolationService.call_repository.
    destruct (lookupViolations _ _ _ _ _) as [[err|result] repo].
    + replace (maxRetries <? attempt) with true by (symmetry; apply Z.ltb_lt; lia).
      rewrite orb_true_r. exists 0%nat. eexists [_].
      split; [lia|]. by repeat split.
    + exists 0%nat. eexists [_]. split; [lia|]. by repeat split.
  - rewrite retry_loop_step. unfold ViolationService.call_repository.
    destruct (lookupViolations _ _ _ _ _) as [[err|result] repo].
    2: { exists 0%nat. eexists [_]. split; [lia|]. by repeat split. }
    replace (maxRetries <? attempt) with false by (symmetry; apply Z.ltb_ge; lia).
    rewrite orb_false_r.
    destruct (ViolationService.isRetryableError err); cbn [negb].
    2: { exists 0%nat. eexists [_]. split; [lia|]. by repeat split. }
    assert (Hnext : attempt + 1 + Z.of_nat n = maxRetries + 1) by lia.
    destruct (ViolationService.clears_captcha _);
      match goal with
      | |- context [ViolationService.retry_loop _ ?p ?v ?m ?a ?o ?l ?t ?s] =>
          destruct (IH p v m a o l t s Hnext)
            as (made & steps & Hmade & Hjournal & Hnumbers & Hflags & Hwaits);
          exists (Datatypes.S made),
            (attempted attempt (1 <? attempt) (LookupOptions.captchaText options)
               (inl err) :: slept (attempt * 2000) :: steps);
          rewrite Hjournal; unfold ViolationService.sleep; cbn [journal];
          (split; [lia|]); (split; [by rewrite <- !app_assoc|]);
          change (Observe.attempt_numbers (_ :: _ :: steps))
            with (attempt :: Observe.attempt_numbers steps);
          change (Observe.forced_flags (_ :: _ :: steps))
            with ((1 <? attempt) :: Observe.forced_flags steps);
          change (Observe.waits (_ :: _ :: steps))
            with (attempt * 2000 :: Observe.waits steps);
          rewrite Hnumbers, Hflags, Hwaits;
          rewrite (seqZ_cons attempt (Z.of_nat (Datatypes.S (Datatypes.S made)))) by lia;
          rewrite (seqZ_cons attempt (Z.of_nat (Datatypes.S made))) by lia;
          replace (Z.pred (Z.of_nat (Datatypes.S (Datatypes.S made))))
            with (Z.of_nat (Datatypes.S made)) by lia;
          replace (Z.pred (Z.of_nat (Datatypes.S made))) with (Z.of_nat made) by lia;
          replace (Z.succ attempt) with (attempt + 1) by lia;
          by repeat split
      end.
Qed.
End RetryShape.

(** X1: whatever the repository does, a lookup with [maxRetries >= 0]
    makes at least one and at most [maxRetries + 1] attempts, numbered
    1, 2, ... without a gap; [forceRefreshCaptcha] is unset on attempt 1
    and set on every later attempt; and the wait before attempt
    [k + 1] is [k * 2000] milliseconds. *)
Theorem X1_attempts_bounded_and_refresh_forced {S : Type} `{Repository S}
    (plate vehicleType : jsstring) (options : LookupOptions.t)
    (maxRetries : Z) (sv : Service S) :
  0 <= maxRetries ->
  let run :=
    ViolationService.lookupWithRetry plate vehicleType options maxRetries sv in
  exists (attempts : Z) steps,
    1 <= attempts <= maxRetries + 1
    /\ journal run.2 = journal sv ++ steps
    /\ Observe.attempt_numbers steps = seqZ 1 attempts
    /\ Observe.forced_flags steps = map (Z.ltb 1) (seqZ 1 attempts)
    /\ Observe.waits steps = map (fun a => a * 2000) (seqZ 1 (attempts - 1)).
Proof.
  intros Hmax. cbv zeta. unfold ViolationService.lookupWithRetry.
  replace (Z.to_nat (maxRetries + 1)) with (Datatypes.S (Z.to_nat maxRetries))
    by lia.
  destruct (retry_loop_shape (Z.to_nat maxRetries) plate vehicleType maxRetries 1
              options None 0 sv ltac:(lia))
    as (made & steps & Hmade & Hjournal & Hnumbers & Hflags & Hwaits).
  exists (Z.of_nat (Datatypes.S made)), steps.
  split; [lia|]. split; [exact Hjournal|]. split; [exact Hnumbers|].
  split; [exact Hflags|].
  rewrite Hwaits. do 2 f_equal. lia.
Qed.

(** The stub that always fails, for X1: with [maxRetries = 5] the flags
    are unset, then set five times. *)
Lemma X1_attempts_bounded_and_refresh_forced_witness :
  let run :=
    @ViolationService.lookupWithRetry nat Scenario.always_ServerError
      (lit "51K67179") (lit "1") Scenario.no_options 5
      (ViolationService.new 0%nat) in
  0 <= 5
  /\ Observe.forced_flags (journal run.2) = [false; true; true; true; true; true]
  /\ exists (attempts : Z) steps,
       1 <= attempts <= 5 + 1
       /\ journal run.2 = journal (ViolationService.new 0%nat) ++ steps
       /\ Observe.attempt_numbers steps = seqZ 1 attempts.
Proof.
  cbv zeta. split; [lia|]. split; [vm_compute; reflexivity|].
  destruct (@X1_attempts_bounded_and_refresh_forced nat Scenario.always_ServerError
              (lit "51K67179") (lit "1") Scenario.no_options 5
              (ViolationService.new 0%nat) ltac:(lia))
    as (attempts & steps & Hbound & Hjournal & Hnumbers & _).
  exists attempts, steps. auto.
Defined.

(** X2: the errors the site client throws for a 404 and for a 403 are
    not retryable. An axios error with status 404 or 403 matches
    [isRetryableError] by its own message, but [classify] replaces it by
    an error whose message names neither the status nor any other
    retryable phrase. *)
Theorem X2_classified_404_403_not_retryable (E : Env) (st : Repo E) :
  let raw status :=
    JsError.mk (lit "Request failed with status code " ++ Number_toString status)
      (Some status) (Some (lit "ERR_BAD_REQUEST")) in
  let NotFound :=
    Error (lit "Website endpoint may have changed or session expired. Please try again.") in
  let Forbidden := Error (lit "Access forbidden. Possible rate limiting.") in
  ViolationService.isRetryableError (raw 404) = true
  /\ ViolationService.isRetryableError (raw 403) = true
  /\ (ViolationRepository.classify E (raw 404) st
      : (JsError.t + jsstring) * Repo E) = (inl NotFound, st)
  /\ (ViolationRepository.classify E (raw 403) st
      : (JsError.t + jsstring) * Repo E) = (inl Forbidden, st)
  /\ ViolationService.isRetryableError NotFound = false
  /\ ViolationService.isRetryableError Forbidden = false.
Proof.
  cbv zeta.
  split; [vm_compute; reflexivity|]. split; [vm_compute; reflexivity|].
  split; [reflexivity|]. split; [reflexivity|].
  split; vm_compute; reflexivity.
Qed.

(** X3: a lookup on a site that answers the validation request with 403
    ends after one attempt: session, captcha image, OCR, validation;
    then the error result with the message of the classified error and
    no regenerated captcha. *)
Theorem X3_forbidden_is_not_retried :
  let run :=
    App.lookupByPlate Scenario.forbidden_site (lit "51K-67179") (lit "1")
      Scenario.no_options
      (App.new_ViolationService Scenario.forbidden_site 0%nat) in
  Observe.attempt_numbers (journal run.2) = [1]
  /\ Observe.waits (journal run.2) = []
  /\ map Observe.target (Observe.requests (trace (violationRepository run.2)))
     = [ (Http.GET, Config.baseUrl);
         (Http.GET, Config.captchaEndpoint);
         (Http.POST, Config.ajaxValidateUrl) ]
  /\ run.1
     = inr (LookupResult.mk error
              (Some (lit "Access forbidden. Possible rate limiting."))
              (Some (LookupData.mk (lit "51K67179") (lit "1") None None None
                       None None None None (Some 0)))).
Proof.
  cbv zeta.
  repeat match goal with
         | |- _ /\ _ => split; [vm_compute; reflexivity|]
         end.
  vm_compute; reflexivity.
Qed.

Lemma initSession_ok (E : Env) (st : Repo E) (r : Http.Response) (w : World E) :
  http E (Http.Build_Request Http.GET Config.baseUrl (jar st) []) (world st)
  = (Http.Responded r, w) ->
  200 <= Http.status r < 300 ->
  ViolationRepository.initSession E st
  = (inr tt,
     Build_Repo w (Http.store (jar st) (Http.set_cookie r))
       (trace st
        ++ [ev_request (Http.Build_Request Http.GET Config.baseUrl (jar st) [])])).
Proof.
  intros Hhttp Hstatus.
  unfold ViolationRepository.initSession, mbind, M_bind, request.
  rewrite Hhttp.
  replace ((200 <=? Http.status r) && (Http.status r <? 300)) with true; [done|].
  symmetry. apply andb_true_iff. split; [apply Z.leb_le | apply Z.ltb_lt]; lia.
Qed.

(** X4: an attempt made with [forceRefreshCaptcha] set fetches a new
    captcha image as soon as the session request has succeeded, whether
    or not the options hold a captcha text: its second request is the
    GET of the captcha endpoint, sent with the cookies of the session
    just opened. *)
Theorem X4_forced_refresh_fetches_captcha_image (E : Env)
    (plate vehicleType : jsstring) (options : LookupOptions.t)
    (st : Repo E) (r : Http.Response) (w : World E) :
  http E (Http.Build_Request Http.GET Config.baseUrl (jar st) []) (world st)
  = (Http.Responded r, w) ->
  200 <= Http.status r < 300 ->
  exists rest,
    trace (ViolationRepository.lookupViolations E plate vehicleType options true st).2
    = trace st
      ++ ev_request (Http.Build_Request Http.GET Config.baseUrl (jar st) [])
      :: ev_request (Http.Build_Request Http.GET Config.captchaEndpoint
                       (Http.store (jar st) (Http.set_cookie r)) [])
      :: rest.
Proof.
  intros Hhttp Hstatus.
  unfold ViolationRepository.lookupViolations, try_catch.
  unfold mbind at 1. unfold M_bind at 1.
  rewrite (initSession_ok E st r w Hhttp Hstatus). cbn [orb].
  match goal with
  | |- context [match ?k ?st1 with _ => _ end] =>
      assert (Hnext : exists rest,
                 trace (k st1).2
                 = trace st1
                   ++ ev_request (Http.Build_Request Http.GET
                                    Config.captchaEndpoint (jar st1) []) :: rest);
      [| destruct (k st1) as [[e|result] st2];
         destruct Hnext as [rest Hnext]; exists rest;
         cbn [snd trace jar mthrow M_throw] in Hnext |- *;
         rewrite Hnext, <- app_assoc; reflexivity ]
  end.
  apply (starts_bind _ _
           (fun st1 => ev_request (Http.Build_Request Http.GET
                                     Config.captchaEndpoint (jar st1) []))).
  - apply starts_bind.
    + unfold ViolationRepository.fetchCaptchaImage. apply starts_bind.
      * intros st1. exists []. apply request_trace.
      * intros; apply grows_ret.
    + intros img. unfold ViolationRepository.solveCaptcha.
      destruct (truthy _); auto with grows.
  - intros captchaText.
    unfold ViolationRepository.validateCaptchaAjax,
      ViolationRepository.fetchLookupResult.
    repeat first
      [ apply grows_try_catch | apply grows_bind
      | match goal with |- forall _, _ => intro end
      | solve [auto with grows]
      | match goal with |- Observe.grows (if ?b then _ else _) => destruct b end ].
Qed.

(** The second attempt of the lookup with a manual captcha on the site
    with an outage, for X4. *)
Lemma X4_forced_refresh_fetches_captcha_image_witness :
  let st :=
    (ViolationRepository.lookupViolations Scenario.outage (lit "51K67179")
       (lit "1") Scenario.manual false
       (ViolationRepository.new Scenario.outage 0%nat)).2 in
  let r := Scenario.answer (Http.Build_Request Http.GET Config.baseUrl (jar st) []) in
  http Scenario.outage (Http.Build_Request Http.GET Config.baseUrl (jar st) [])
    (world st) = (Http.Responded r, 2%nat)
  /\ 200 <= Http.status r < 300
  /\ exists rest,
       trace (ViolationRepository.lookupViolations Scenario.outage
                (lit "51K67179") (lit "1") Scenario.manual true st).2
       = trace st
         ++ ev_request (Http.Build_Request Http.GET Config.baseUrl (jar st) [])
         :: ev_request (Http.Build_Request Http.GET Config.captchaEndpoint
                          (Http.store (jar st) (Http.set_cookie r)) [])
         :: rest.
Proof.
  cbv zeta.
  match goal with
  | |- ?Hhttp /\ ?Hstatus /\ _ =>
      assert (H1 : Hhttp) by (vm_compute; reflexivity);
      assert (H2 : Hstatus) by (vm_compute; split; [discriminate | reflexivity])
  end.
  split; [exact H1|]. split; [exact H2|].
  exact (X4_forced_refresh_fetches_captcha_image Scenario.outage (lit "51K67179")
           (lit "1") Scenario.manual _ _ _ H1 H2).
Defined.

(** X5: a plate typed as "51K-67179 " reaches the site as "51K67179":
    the only request that carries it, the validation, sends the form
    field [BienKS] with the cleaned plate and the trailing space the
    site expects. *)
Theorem X5_plate_is_cleaned_before_the_site_sees_it :
  let run :=
    App.lookupByPlate Scenario.session_site (lit "51K-67179 ") (lit "1")
      Scenario.no_options
      (App.new_ViolationService Scenario.session_site 0%nat) in
  toUpperCase (remove_spaces_and_dashes (lit "51K-67179 ")) = lit "51K67179"
  /\ omap (fun r => snd <$> List.find
                              (fun kv => bool_decide (kv.1 = lit "BienKS"))
                              (Http.form r))
       (Observe.requests (trace (violationRepository run.2)))
     = [lit "51K67179 "]
  /\ (LookupData.plate
        <$> match run.1 with
            | inr result => LookupResult.data result
            | inl _ => None
            end)
     = Some (lit "51K67179").
Proof.
  cbv zeta.
  repeat match goal with
         | |- _ /\ _ => split; [vm_compute; reflexivity|]
         end.
  vm_compute; reflexivity.
Qed.

(** X6: on a site that answers every request with status 500, each
    attempt ends in the session request with the error of axios, whose
    message names the status but is none of those that clear the
    captcha: the lookup makes its six attempts, five of them with a
    forced refresh, and reports the last error with a regeneration
    count of 0. *)
Theorem X6_unclassified_500_is_retried_but_not_counted :
  let run :=
    App.lookupByPlate Scenario.down_site (lit "51K-67179") (lit "1")
      Scenario.no_options (App.new_ViolationService Scenario.down_site 0%nat) in
  Observe.attempt_numbers (journal run.2) = [1; 2; 3; 4; 5; 6]
  /\ Observe.forced_refreshes (journal run.2) = 5%nat
  /\ Observe.waits (journal run.2) = [2000; 4000; 6000; 8000; 10000]
  /\ map Observe.target (Observe.requests (trace (violationRepository run.2)))
     = [ (Http.GET, Config.baseUrl); (Http.GET, Config.baseUrl);
         (Http.GET, Config.baseUrl); (Http.GET, Config.baseUrl);
         (Http.GET, Config.baseUrl); (Http.GET, Config.baseUrl) ]
  /\ run.1
     = inr (LookupResult.mk error
              (Some (lit "Request failed with status code 500"))
              (Some (LookupData.mk (lit "51K67179") (lit "1") None None None
                       None None None None (Some 0)))).
Proof.
  cbv zeta.
  repeat match goal with
         | |- _ /\ _ => split; [vm_compute; reflexivity|]
         end.
  vm_compute; reflexivity.
Qed.
